(** * LLMHandler: provider resolution and chat-client construction

    A shallow embedding of [src/evaluate/llm_handler.py].  The class
    [LLMHandler] keeps three tables (the model catalog, the capability
    tags and the detection patterns) and offers four methods:
    [_detect_provider], [_validate_model], [get_all_models] and [get_llm].

    Python features and how they appear here:
    - [str] is [string], read over the ASCII alphabet, which holds every
      name of the tables; [pattern in s] is [contains]; [s.lower()] and
      [s.upper()] are [lower] and [upper] (they act on the ASCII letters,
      every other character is kept);
    - the instance tables are insertion-ordered dicts whose iteration order
      the code relies on: association lists in literal order;
    - [model_params], [kwargs] and [os.environ] are only read and written
      by key: [gmap string _];
    - [raise], [print] and the write to [os.environ] are effects: a state
      and exception monad [M] over the [world] of the process; the write
      to [os.environ] fails the way [os.putenv] does;
    - the provider SDK classes are external: a client is the class that was
      called together with the keyword arguments of the call, and whether
      a constructor accepts a call or raises is a datum of the [world];
    - [kwargs] is the dict that Python binds to [**kwargs]: it never holds
      the name of a parameter of [get_llm] ([bound_kwargs]). *)

From Stdlib Require Import String Ascii ZArith PrimFloat.
From stdpp Require Import base option list gmap strings.

Local Set Warnings "-inexact-float".
Local Open Scope Z_scope.

(** ** Strings *)

Module Str.

Definition is_upper (c : ascii) : bool :=
  let n := N_of_ascii c in ((65 <=? n) && (n <=? 90))%N.

Definition is_lower (c : ascii) : bool :=
  let n := N_of_ascii c in ((97 <=? n) && (n <=? 122))%N.

Definition lower_char (c : ascii) : ascii :=
  if is_upper c then ascii_of_N (N_of_ascii c + 32) else c.

Definition upper_char (c : ascii) : ascii :=
  if is_lower c then ascii_of_N (N_of_ascii c - 32) else c.

Fixpoint map (f : ascii -> ascii) (s : string) : string :=
  match s with
  | EmptyString => EmptyString
  | String c s' => String (f c) (map f s')
  end.

(** [s.lower()] and [s.upper()]. *)
Definition lower : string -> string := map lower_char.
Definition upper : string -> string := map upper_char.

(** [p in s] for two strings: [p] occurs in [s] as a contiguous run. *)
Fixpoint contains (p s : string) : bool :=
  String.prefix p s ||
  match s with
  | EmptyString => false
  | String _ s' => contains p s'
  end.

End Str.

(** ** Python values that travel as keyword arguments *)

Inductive value : Type :=
| VNone
| VBool (b : bool)
| VInt (z : Z)
| VFloat (f : float)
| VStr (s : string).

Definition is_None (v : value) : bool :=
  match v with VNone => true | _ => false end.

(** [Optional[int]] as a value. *)
Definition of_optional_int (o : option Z) : value :=
  match o with None => VNone | Some z => VInt z end.

(** ** Insertion-ordered dicts

    The items in insertion order.  The keys of a Python dict are distinct;
    no result below needs that, so it is not asked for. *)

Definition dict (V : Type) : Type := list (string * V).

(** [d.get(k)]: [None] when [k not in d], else [Some d[k]]. *)
Fixpoint dict_get {V} (k : string) (d : dict V) : option V :=
  match d with
  | [] => None
  | (k', v) :: d' => if decide (k = k') then Some v else dict_get k d'
  end.

Definition dict_keys {V} (d : dict V) : list string := d.*1.
Definition dict_values {V} (d : dict V) : list V := d.*2.

(** ** Effects: exceptions, the process environment, standard output *)

(** The provider SDK classes that [get_llm] calls. *)
Inductive chat_class : Type :=
| ChatAnthropic
| ChatMistralAI
| ChatGoogleGenerativeAI
| ChatTogether
| ChatOpenAI
| ChatFireworks
| ChatOllama.

(** The messages of the [ValueError]s that the module raises itself,
    with the data that the f-strings interpolate, and the two messages of
    the [ValueError] that the write to [os.environ] raises. *)
Inductive message : Type :=
| Could_not_detect_provider (model_name : string)
| Provider_not_supported (provider : string) (available : list string)
| Model_not_available (model_name provider : string) (available : list string)
| Embedded_null_byte
| Illegal_environment_variable_name.

(** What [get_llm] can raise.  The multiple-values [TypeError] of a call
    carries the keywords that are given both explicitly and through
    [**model_params], in the order of the call; the message of Python's
    error names one of them, the first in the caller's own order, which
    [kwargs] as a finite map does not record.  [ConstructorError] is
    whatever the constructor of a provider SDK raised, of whatever Python
    class. *)
Inductive exn : Type :=
| ValueError (m : message)
| TypeError_multiple_values (keywords : list string)
| ConstructorError (c : chat_class) (raised : string).

(** The process: its environment, what it has printed, and the provider
    SDKs installed in it.  [sdk c args env] is what the constructor of
    class [c] does when called with the keyword arguments [args] in the
    environment [env]: [None] when it builds the client, [Some e] when it
    raises [e] (missing credentials, a rejected argument, ...).
    Constructors are taken to print nothing and to leave the environment
    alone. *)
Record world : Type := World {
  environ : gmap string string;
  stdout : list string;
  sdk : chat_class -> gmap string value -> gmap string string -> option string
}.

Definition M (A : Type) : Type := world -> world * (exn + A).

Definition ret {A} (a : A) : M A := fun w => (w, inr a).
Definition raise {A} (e : exn) : M A := fun w => (w, inl e).
Definition bind {A B} (m : M A) (k : A -> M B) : M B :=
  fun w => match m w with
           | (w', inr a) => k a w'
           | (w', inl e) => (w', inl e)
           end.

Notation "x <- m ;; k" := (bind m (fun x => k))
  (at level 100, m at next level, right associativity).
Notation "m ;;; k" := (bind m (fun _ => k))
  (at level 100, right associativity).

(** [print(line)] *)
Definition print (line : string) : M unit :=
  fun w => (World (environ w) (stdout w ++ [line]) (sdk w), inr tt).

(** The character that ends a C string. *)
Definition nul : string := String Ascii.zero EmptyString.

(** [os.environ[name] = val].  The setter hands both strings to
    [os.putenv], which refuses a NUL character in either of them
    ("embedded null byte") and then an empty name or a name with ["="]
    ("illegal environment variable name"); when it refuses, nothing is
    written. *)
Definition environ_set (name val : string) : M unit :=
  fun w =>
    if Str.contains nul name || Str.contains nul val
    then (w, inl (ValueError Embedded_null_byte))
    else if bool_decide (name = "") || Str.contains "=" name
    then (w, inl (ValueError Illegal_environment_variable_name))
    else (World (<[name := val]> (environ w)) (stdout w) (sdk w), inr tt).

(** ** The handler *)

Record LLMHandler : Type := {
  available_models : dict (list string);
  model_types : dict string;
  model_patterns : dict string
}.

(** The tables built by the constructor; commented-out entries of the
    source are not part of the dict literal. *)
Definition __init__ : LLMHandler := {|
  available_models := [ ("ollama", ["llama3.2:3b"; "mistral:7b"]) ];
  model_types :=
    [ ("llama3.2:3b", "open-source");
      ("mistral:7b", "open-source");
      ("claude-3-5-sonnet-20241022", "private");
      ("claude-3-5-haiku-20241022", "private");
      ("open-mistral-nemo-2407", "open-source");
      ("ministral-8b-2410", "private");
      ("mistral-small-2409", "private");
      ("mistral-large-2411", "private");
      ("gemini-2.0-flash-exp", "private");
      ("gemini-1.5-flash", "private");
      ("gemini-1.5-pro", "private");
      ("gemini-2.0-flash-001", "private");
      ("meta-llama/Llama-3.3-70B-Instruct-Turbo", "open-source");
      ("meta-llama/Meta-Llama-3.1-8B-Instruct-Turbo", "open-source");
      ("gpt-4o-2024-11-20", "private");
      ("gpt-4o-mini", "private");
      ("o1-2024-12-17", "private");
      ("accounts/fireworks/models/qwen-qwq-32b-preview", "open-source");
      ("accounts/fireworks/models/qwen2p5-72b-instruct", "open-source");
      ("accounts/fireworks/models/deepseek-v3", "open-source");
      ("accounts/fireworks/models/deepseek-r1", "open-source") ];
  model_patterns :=
    [ ("o1", "openai");
      ("o3", "openai");
      ("gpt-4o", "openai");
      ("claude", "anthropic");
      ("mistral-", "mistral");
      ("ministral", "mistral");
      ("gemini", "google");
      ("mixtral", "together");
      ("llama", "ollama");
      ("fireworks", "fireworks");
      ("r1", "together");
      ("deepseek-v3", "together") ]
|}.

(** *** [_detect_provider] *)

(** The [for pattern, provider in self.model_patterns.items()] loop. *)
Fixpoint detect_loop (items : dict string) (model_name : string) : M string :=
  match items with
  | [] => raise (ValueError (Could_not_detect_provider model_name))
  | (pattern, provider) :: rest =>
      if Str.contains pattern (Str.lower model_name)
      then ret provider
      else detect_loop rest model_name
  end.

Definition _detect_provider (self : LLMHandler) (model_name : string) : M string :=
  detect_loop (model_patterns self) model_name.

(** *** [_validate_model] *)

Definition _validate_model (self : LLMHandler) (provider model_name : string)
  : M bool :=
  match dict_get provider (available_models self) with
  | None =>
      raise (ValueError
               (Provider_not_supported provider (dict_keys (available_models self))))
  | Some models =>
      if bool_decide (model_name ∈ models)
      then ret true
      else raise (ValueError (Model_not_available model_name provider models))
  end.

(** *** [get_all_models] *)

Definition get_all_models (self : LLMHandler) : list string :=
  fold_left (fun all_models '(provider, models) => all_models ++ models)
            (available_models self) [].

(** *** [get_llm] *)

(** A constructed client: the class and the keyword arguments it got. *)
Record chat_model : Type := ChatModel {
  cls : chat_class;
  init_kwargs : gmap string value
}.

(** [C(k1=v1, ..., **model_params)]: keywords that are given both ways
    make the call itself fail, before the constructor runs; otherwise the
    constructor of the SDK decides, and what it raises is passed on. *)
Definition clashing (explicit : list (string * value))
    (model_params : gmap string value) : list string :=
  filter (fun k => is_Some (model_params !! k)) explicit.*1.

Definition construct (c : chat_class) (explicit : list (string * value))
    (model_params : gmap string value) : M chat_model :=
  fun w =>
    match clashing explicit model_params with
    | k :: ks => (w, inl (TypeError_multiple_values (k :: ks)))
    | [] =>
        let args := list_to_map explicit ∪ model_params in
        match sdk w c args (environ w) with
        | Some raised => (w, inl (ConstructorError c raised))
        | None => (w, inr (ChatModel c args))
        end
    end.

Definition default_temperature : float := 0%float.
Definition default_max_tokens : option Z := Some 4000.

(** Truthiness of an [Optional[str]]: [None] and [""] are false. *)
Definition truthy (o : option string) : option string :=
  match o with
  | Some EmptyString | None => None
  | Some s => Some s
  end.

(** Lines 165 to 176: the parameter set handed to the constructor. *)
Definition assemble_params (model_name : string) (temperature : float)
    (max_tokens : option Z) (kwargs : gmap string value) : gmap string value :=
  let model_params : gmap string value :=
    kwargs ∪ <["max_tokens" := of_optional_int max_tokens]>
               (<["temperature" := VFloat temperature]> ∅) in
  let model_params :=
    if Str.contains "o1" model_name || Str.contains "o3" model_name
    then delete "temperature" model_params
    else model_params in
  let model_params :=
    if Str.contains "r1" model_name
    then <["temperature" := VFloat 0.6]> model_params
    else model_params in
  filter (fun kv => is_None kv.2 = false) model_params.

Definition ollama_model : string := "llama3.1:8b-instruct-q8_0".
Definition ollama_base_url : string := "http://host.docker.internal:11434/v1".

(** The [if provider == ... elif ...] chain; falling off its end returns
    [None]. *)
Definition dispatch (provider model_name : string)
    (model_params : gmap string value) : M (option chat_model) :=
  let go notice c explicit :=
    (print notice;;; m <- construct c explicit model_params;; ret (Some m)) in
  if decide (provider = "anthropic") then
    go "Using Anthropic AI" ChatAnthropic [("model_name", VStr model_name)]
  else if decide (provider = "mistral") then
    go "Using Mistral AI" ChatMistralAI [("model_name", VStr model_name)]
  else if decide (provider = "google") then
    go "Using Google Generative AI" ChatGoogleGenerativeAI [("model", VStr model_name)]
  else if decide (provider = "together") then
    go "Using ChatTogether" ChatTogether [("model", VStr model_name)]
  else if decide (provider = "openai") then
    go "Using OpenAI" ChatOpenAI [("model", VStr model_name)]
  else if decide (provider = "fireworks") then
    go "Using Fireworks" ChatFireworks [("model", VStr model_name)]
  else if decide (provider = "ollama") then
    go "Using Ollama" ChatOllama
       [("model", VStr ollama_model); ("base_url", VStr ollama_base_url)]
  else ret None.

Definition get_llm (self : LLMHandler) (model_name : string)
    (provider : option string) (temperature : float) (max_tokens : option Z)
    (api_key : option string) (kwargs : gmap string value)
  : M (option chat_model) :=
  provider <- match provider with
              | None => _detect_provider self model_name
              | Some p => ret p
              end;;
  _validate_model self provider model_name;;;
  match truthy api_key with
  | Some key => environ_set (Str.upper provider +:+ "_API_KEY") key
  | None => ret tt
  end;;;
  dispatch provider model_name
           (assemble_params model_name temperature max_tokens kwargs).

(** The handler after [self.available_models = catalog]: the two other
    tables are those of the constructor. *)
Definition with_catalog (catalog : dict (list string)) : LLMHandler := {|
  available_models := catalog;
  model_types := model_types __init__;
  model_patterns := model_patterns __init__
|}.

(** The catalog as it reads once the entries that the source keeps in
    comments are switched on.  It is not the catalog of [__init__]; it
    serves as a second, concrete handler in the examples below. *)
Definition catalog_with_disabled_entries : dict (list string) :=
  [ ("ollama", ["llama3.2:3b"; "mistral:7b"]);
    ("anthropic", ["claude-3-5-sonnet-20241022"; "claude-3-5-haiku-20241022"]);
    ("mistral",
      ["open-mistral-nemo-2407"; "ministral-8b-2410"; "mistral-small-2409";
       "mistral-large-2411"; "mistral-small-2501"]);
    ("google",
      ["gemini-2.0-flash-exp"; "gemini-1.5-flash"; "gemini-1.5-pro";
       "gemini-2.0-flash-001"]);
    ("together",
      ["meta-llama/Llama-3.3-70B-Instruct-Turbo";
       "meta-llama/Meta-Llama-3.1-8B-Instruct-Turbo";
       "deepseek-ai/DeepSeek-R1"; "deepseek-ai/DeepSeek-V3"]);
    ("openai",
      ["gpt-4o-2024-11-20"; "gpt-4o-mini"; "o1-2024-12-17"; "o3-mini-2025-01-31"]);
    ("fireworks",
      ["accounts/fireworks/models/qwen-qwq-32b-preview";
       "accounts/fireworks/models/qwen2p5-72b-instruct";
       "accounts/fireworks/models/deepseek-v3";
       "accounts/fireworks/models/deepseek-r1"]) ].

(** A process that has set no variable and printed nothing, with SDKs
    whose constructors accept every call. *)
Definition fresh : world := World ∅ [] (fun _ _ _ => None).



(** ** Substrings *)

(** [p] occurs in [s]: the meaning of Python's [p in s]. *)
Definition occurs_in (p s : string) : Prop :=
  exists a b : string, s = a +:+ p +:+ b.

(** [os.putenv] takes the pair: no NUL character in the name or in the
    value, and a name that is not empty and has no ["="]. *)
Definition putenv_accepts (name val : string) : Prop :=
  ~ occurs_in nul name /\ ~ occurs_in nul val
  /\ name <> "" /\ ~ occurs_in "=" name.

(** The key step of [get_llm] does not raise: there is no truthy key to
    store, or [os.putenv] takes it under the variable of the provider. *)
Definition key_accepted (provider : string) (api_key : option string) : Prop :=
  forall key, truthy api_key = Some key ->
              putenv_accepts (Str.upper provider +:+ "_API_KEY") key.

(** The process after the key step has stored what there was to store. *)
Definition key_stored (provider : string) (api_key : option string)
    (w : world) : world :=
  World (match truthy api_key with
         | Some key => <[Str.upper provider +:+ "_API_KEY" := key]> (environ w)
         | None => environ w
         end) (stdout w) (sdk w).

(** ** Notions used in the statements *)

(** Steps 1 and 3 of [get_llm] under names of their own. *)
Definition resolve (self : LLMHandler) (model_name : string)
    (provider : option string) : M string :=
  match provider with
  | None => _detect_provider self model_name
  | Some p => ret p
  end.

Definition store_key (provider : string) (api_key : option string) : M unit :=
  match truthy api_key with
  | Some key => environ_set (Str.upper provider +:+ "_API_KEY") key
  | None => ret tt
  end.

(** The rows of the [if]/[elif] chain: provider, notice, class and the
    keywords written out in the call. *)
Inductive provider_call (model_name : string)
  : string -> string -> chat_class -> list (string * value) -> Prop :=
| call_anthropic :
    provider_call model_name "anthropic" "Using Anthropic AI" ChatAnthropic
                  [("model_name", VStr model_name)]
| call_mistral :
    provider_call model_name "mistral" "Using Mistral AI" ChatMistralAI
                  [("model_name", VStr model_name)]
| call_google :
    provider_call model_name "google" "Using Google Generative AI"
                  ChatGoogleGenerativeAI [("model", VStr model_name)]
| call_together :
    provider_call model_name "together" "Using ChatTogether" ChatTogether
                  [("model", VStr model_name)]
| call_openai :
    provider_call model_name "openai" "Using OpenAI" ChatOpenAI
                  [("model", VStr model_name)]
| call_fireworks :
    provider_call model_name "fireworks" "Using Fireworks" ChatFireworks
                  [("model", VStr model_name)]
| call_ollama :
    provider_call model_name "ollama" "Using Ollama" ChatOllama
                  [("model", VStr ollama_model); ("base_url", VStr ollama_base_url)].

(** A computation that leaves the process environment as it found it. *)
Definition keeps_environ {A} (m : M A) : Prop :=
  forall w, environ (m w).1 = environ w.

(** The handler after [self.available_models["openai"] = ["o1-r1"]]: the
    shipped catalog lists no model whose name holds both ["o1"] or ["o3"]
    and ["r1"], so the two rules meet only on a catalog that does. *)
Definition catalog_with_o1_r1 : dict (list string) :=
  available_models __init__ ++ [("openai", ["o1-r1"])].

(** The model name of the detection-order example. *)
Definition deepseek_r1 : string := "accounts/fireworks/models/deepseek-r1".

(** Some character of [s] is an upper-case ASCII letter. *)
Fixpoint has_upper (s : string) : bool :=
  match s with
  | EmptyString => false
  | String c s' => Str.is_upper c || has_upper s'
  end.


(** The provider name that the chain pairs with each class. *)
Definition provider_of_class (c : chat_class) : string :=
  match c with
  | ChatAnthropic => "anthropic"
  | ChatMistralAI => "mistral"
  | ChatGoogleGenerativeAI => "google"
  | ChatTogether => "together"
  | ChatOpenAI => "openai"
  | ChatFireworks => "fireworks"
  | ChatOllama => "ollama"
  end.

(** SDKs that want their credentials, for the examples: the constructor
    of a hosted provider raises unless the variable of its api key is
    set; the local one takes every call. *)
Definition sdk_wants_key : chat_class -> gmap string value ->
                           gmap string string -> option string :=
  fun c _ env =>
    match c, env !! (Str.upper (provider_of_class c) +:+ "_API_KEY") with
    | ChatOllama, _ | _, Some _ => None
    | _, None => Some "api key not set"
    end.

(** The keyword under which the chain passes the model to each class. *)
Definition model_keyword (c : chat_class) : string :=
  match c with
  | ChatAnthropic | ChatMistralAI => "model_name"
  | _ => "model"
  end.

(** What the [None] filter of line 176 makes of a looked-up value. *)
Definition drop_None (o : option value) : option value :=
  match o with
  | Some v => if is_None v then None else Some v
  | None => None
  end.

(** ** Facts about substrings *)

Module StrFacts.
Import Str.

Lemma append_cons (c : ascii) (a b : string) :
  String c a +:+ b = String c (a +:+ b).
Proof. reflexivity. Qed.

Lemma append_nil_inv (a b : string) :
  a +:+ b = EmptyString -> a = EmptyString /\ b = EmptyString.
Proof.
  destruct a; [intros H; split; [reflexivity | exact H] |].
  rewrite append_cons. discriminate.
Qed.

Lemma prefix_append (p s : string) :
  String.prefix p s = true <-> exists b, s = p +:+ b.
Proof.
  revert s; induction p as [|c p IH]; intros s.
  - destruct s; split; eauto.
  - destruct s as [|d s]; cbn [String.prefix].
    + split; [discriminate | intros [b Hb]; discriminate].
    + destruct (ascii_dec c d) as [->|Hne].
      * rewrite IH. split; intros [b Hb]; exists b;
          rewrite append_cons in *; congruence.
      * split; [discriminate |].
        intros [b Hb]. rewrite append_cons in Hb. congruence.
Qed.

Lemma contains_occurs_in (p s : string) :
  contains p s = true <-> occurs_in p s.
Proof.
  unfold occurs_in. induction s as [|c s IH]; cbn [contains].
  - rewrite orb_false_r, prefix_append. split.
    + intros [b Hb]. exists EmptyString, b. exact Hb.
    + intros (a & b & Hab). symmetry in Hab.
      apply append_nil_inv in Hab as [-> Hpb]. exists b. now symmetry.
  - rewrite orb_true_iff, prefix_append, IH. split.
    + intros [[b Hb] | (a & b & Hab)].
      * exists EmptyString, b. exact Hb.
      * exists (String c a), b. rewrite append_cons. now rewrite Hab.
    + intros ([|d a] & b & Hab).
      * left. exists b. exact Hab.
      * right. exists a, b. rewrite append_cons in Hab. congruence.
Qed.

Lemma not_contains_occurs_in (p s : string) :
  contains p s = false <-> ~ occurs_in p s.
Proof.
  rewrite <- contains_occurs_in. destruct (contains p s); split;
    congruence.
Qed.

(** [lower] and [upper] keep the length and touch letters only. *)
Lemma length_map (f : ascii -> ascii) (s : string) :
  String.length (map f s) = String.length s.
Proof. induction s; cbn; congruence. Qed.

Lemma lower_char_idem (c : ascii) : lower_char (lower_char c) = lower_char c.
Proof.
  destruct c as [[] [] [] [] [] [] [] []]; reflexivity.
Qed.

Lemma lower_idem (s : string) : lower (lower s) = lower s.
Proof.
  unfold lower. induction s as [|c s IH]; cbn; [reflexivity|].
  now rewrite lower_char_idem, IH.
Qed.

End StrFacts.

(** ** Dicts *)

Section dict_facts.
Context {V : Type}.
Implicit Types (d : dict V) (k : string).

Lemma dict_get_None d k : dict_get k d = None <-> k ∉ dict_keys d.
Proof.
  unfold dict_keys. induction d as [|[k' v] d IH]; cbn.
  - split; [intros _; apply not_elem_of_nil | reflexivity].
  - rewrite not_elem_of_cons, <- IH. case_decide; split;
      [discriminate | tauto | tauto | tauto].
Qed.

Lemma dict_get_Some d k v : dict_get k d = Some v -> (k, v) ∈ d.
Proof.
  induction d as [|[k' v'] d IH]; cbn; [discriminate|].
  case_decide.
  - intros [= ->]. subst. apply list_elem_of_here.
  - intros H'. apply list_elem_of_further, IH, H'.
Qed.

Lemma dict_get_is_Some d k : is_Some (dict_get k d) <-> k ∈ dict_keys d.
Proof.
  rewrite <- not_eq_None_Some, dict_get_None.
  split; [apply dec_stable | auto].
Qed.
End dict_facts.

(** ** Running the monad *)

Lemma bind_inr {A B} (m : M A) (k : A -> M B) w w' a :
  m w = (w', inr a) -> bind m k w = k a w'.
Proof. unfold bind. now intros ->. Qed.

Lemma bind_inl {A B} (m : M A) (k : A -> M B) w w' e :
  m w = (w', inl e) -> bind m k w = (w', inl e).
Proof. unfold bind. now intros ->. Qed.

Lemma bind_inr_inv {A B} (m : M A) (k : A -> M B) w w' b :
  bind m k w = (w', inr b) ->
  exists a w1, m w = (w1, inr a) /\ k a w1 = (w', inr b).
Proof.
  unfold bind. destruct (m w) as [w1 [e|a]]; [discriminate | eauto].
Qed.

(** ** [_detect_provider] *)

(** C5 — [_detect_provider] walks the pattern table in its order and
    answers with the provider of the first pattern that occurs in the
    lower-cased model name: the table splits into patterns that do not
    occur, the pattern that does, and a rest that is not looked at.  When no
    pattern of the table occurs it raises the [ValueError] that reports the
    failed detection.  Neither outcome touches the process state. *)
Theorem detect_provider_first_match (self : LLMHandler) (model_name : string)
    (w : world) :
  (exists pre pattern provider post,
      model_patterns self = pre ++ (pattern, provider) :: post
      /\ Forall (fun kv => ~ occurs_in kv.1 (Str.lower model_name)) pre
      /\ occurs_in pattern (Str.lower model_name)
      /\ _detect_provider self model_name w = (w, inr provider))
  \/ (Forall (fun kv => ~ occurs_in kv.1 (Str.lower model_name))
             (model_patterns self)
      /\ _detect_provider self model_name w
         = (w, inl (ValueError (Could_not_detect_provider model_name)))).
Proof.
  unfold _detect_provider. generalize (model_patterns self) as items.
  induction items as [|[pattern provider] rest IH]; cbn [detect_loop].
  - right. split; [constructor | reflexivity].
  - destruct (Str.contains pattern (Str.lower model_name)) eqn:Hc.
    + left. exists [], pattern, provider, rest.
      apply StrFacts.contains_occurs_in in Hc. repeat split; auto.
    + apply StrFacts.not_contains_occurs_in in Hc.
      destruct IH as [(pre & p & q & post & -> & Hpre & Hp & Hrun) | [Hall Hrun]].
      * left. exists ((pattern, provider) :: pre), p, q, post.
        repeat split; auto.
      * right. split; auto.
Qed.

(** Detection on the names of the source's tables. *)
Example detect_examples :
  _detect_provider __init__ "llama3.2:3b" fresh = (fresh, inr "ollama")
  /\ _detect_provider __init__ "GPT-4o-mini" fresh = (fresh, inr "openai")
  /\ _detect_provider __init__ "ministral-8b-2410" fresh = (fresh, inr "mistral")
  /\ _detect_provider __init__ "deepseek-ai/DeepSeek-R1" fresh
     = (fresh, inr "together")
  /\ _detect_provider __init__ "qwen2" fresh
     = (fresh, inl (ValueError (Could_not_detect_provider "qwen2"))).
Proof. repeat split. Qed.

(** ** [_validate_model] *)

(** C6 — [_validate_model] has three outcomes, decided in this order:
    the provider is no key of the catalog and the unsupported-provider
    [ValueError] is raised; the provider is a key but the model is not in
    its list and the unsupported-model [ValueError] is raised; the model is
    in the list and [True] is returned.  In each of them the process state
    after the call is the state before it.  On the shipped catalog,
    [("ollama", "llama3.2:3b")] is accepted and [("ollama", "gpt-4o")] is
    refused with the unsupported-model error. *)
Theorem validate_model_outcomes (self : LLMHandler) (provider model_name : string)
    (w : world) :
  let catalog := available_models self in
  (((provider ∉ dict_keys catalog)
    /\ _validate_model self provider model_name w
       = (w, inl (ValueError (Provider_not_supported provider (dict_keys catalog)))))
   \/ (exists models,
         (provider ∈ dict_keys catalog)
         /\ dict_get provider catalog = Some models
         /\ (model_name ∉ models)
         /\ _validate_model self provider model_name w
            = (w, inl (ValueError (Model_not_available model_name provider models))))
   \/ (exists models,
         (provider ∈ dict_keys catalog)
         /\ dict_get provider catalog = Some models
         /\ (model_name ∈ models)
         /\ _validate_model self provider model_name w = (w, inr true)))
  /\ _validate_model __init__ "ollama" "llama3.2:3b" w = (w, inr true)
  /\ _validate_model __init__ "ollama" "gpt-4o" w
     = (w, inl (ValueError (Model_not_available "gpt-4o" "ollama"
                              ["llama3.2:3b"; "mistral:7b"]))).
Proof.
  cbn zeta. split; [| split; reflexivity].
  unfold _validate_model.
  destruct (dict_get provider (available_models self)) as [models|] eqn:Hget.
  - assert (provider ∈ dict_keys (available_models self)) as Hkey
      by (apply dict_get_is_Some; eauto).
    right. case_bool_decide; [right | left]; exists models; auto.
  - left. split; [now apply dict_get_None | reflexivity].
Qed.

Lemma validate_model_accepts self provider model_name models w :
  dict_get provider (available_models self) = Some models ->
  model_name ∈ models ->
  _validate_model self provider model_name w = (w, inr true).
Proof.
  intros Hget Hin. unfold _validate_model. rewrite Hget.
  now rewrite bool_decide_eq_true_2.
Qed.

Lemma validate_model_inr_inv self provider model_name w w' b :
  _validate_model self provider model_name w = (w', inr b) ->
  w' = w /\ b = true
  /\ exists models, dict_get provider (available_models self) = Some models
                    /\ model_name ∈ models.
Proof.
  unfold _validate_model.
  destruct (dict_get provider (available_models self)) as [models|];
    [| discriminate].
  case_bool_decide; [| discriminate].
  intros [= <- <-]. eauto.
Qed.

(** C8 — detection does not follow the catalog: ["mistral:7b"] is listed
    under ["ollama"], yet no pattern of the table occurs in it and
    [_detect_provider] raises; so it is false that every catalog model is
    detected as its catalog provider. *)
Theorem detection_is_not_catalog_based :
  (("ollama", ["llama3.2:3b"; "mistral:7b"]) ∈ available_models __init__)
  /\ ("mistral:7b" ∈ ["llama3.2:3b"; "mistral:7b"])
  /\ _detect_provider __init__ "mistral:7b" fresh
     = (fresh, inl (ValueError (Could_not_detect_provider "mistral:7b")))
  /\ ~ (forall provider models model_name,
          (provider, models) ∈ available_models __init__ ->
          model_name ∈ models ->
          _detect_provider __init__ model_name fresh = (fresh, inr provider)).
Proof.
  assert (("ollama", ["llama3.2:3b"; "mistral:7b"]) ∈ available_models __init__)
    as Hentry by apply list_elem_of_here.
  assert ("mistral:7b" ∈ ["llama3.2:3b"; "mistral:7b"]) as Hmodel
    by (apply list_elem_of_further, list_elem_of_here).
  repeat split; auto.
  intros Hall. specialize (Hall _ _ _ Hentry Hmodel). discriminate Hall.
Qed.

(** ** [get_all_models] *)

Lemma extend_loop (catalog : dict (list string)) (acc : list string) :
  fold_left (fun all_models '(provider, models) => all_models ++ models)
            catalog acc
  = acc ++ concat (dict_values catalog).
Proof.
  unfold dict_values. revert acc.
  induction catalog as [|[provider models] catalog IH]; intros acc; cbn.
  - now rewrite app_nil_r.
  - now rewrite IH, app_assoc.
Qed.

(** C9 — [get_all_models] is the concatenation of the catalog's lists,
    providers in catalog order and models in list order; its length is the
    sum of the lengths of the lists.  Nothing is removed and nothing is
    reordered: a model listed twice appears twice, as the second catalog
    below shows. *)
Theorem get_all_models_concat (self : LLMHandler) :
  get_all_models self = concat (dict_values (available_models self))
  /\ length (get_all_models self)
     = sum_list (length <$> dict_values (available_models self))
  /\ get_all_models __init__ = ["llama3.2:3b"; "mistral:7b"]
  /\ get_all_models (with_catalog [("b", ["z"; "a"]); ("a", ["z"])])
     = ["z"; "a"; "z"].
Proof.
  assert (get_all_models self = concat (dict_values (available_models self)))
    as Heq by apply extend_loop.
  repeat split; auto.
  rewrite Heq. generalize (dict_values (available_models self)) as ls.
  induction ls as [|l ls IH]; cbn; [reflexivity|].
  rewrite length_app. now rewrite IH.
Qed.

(** ** The assembled parameters *)

Section assemble_facts.
Variables (model_name : string) (temperature : float)
          (max_tokens : option Z) (kwargs : gmap string value).

Lemma assemble_temperature_r1 :
  Str.contains "r1" model_name = true ->
  assemble_params model_name temperature max_tokens kwargs !! "temperature"
  = Some (VFloat 0.6).
Proof.
  intros Hr1. unfold assemble_params. rewrite Hr1.
  apply map_lookup_filter_Some_2; [apply lookup_insert_eq | reflexivity].
Qed.

Lemma assemble_temperature_removed :
  Str.contains "o1" model_name || Str.contains "o3" model_name = true ->
  Str.contains "r1" model_name = false ->
  assemble_params model_name temperature max_tokens kwargs !! "temperature"
  = None.
Proof.
  intros Ho Hr1. unfold assemble_params. rewrite Ho, Hr1.
  apply map_lookup_filter_None_2. left. apply lookup_delete_eq.
Qed.

(** Keys other than the two named parameters come from [kwargs] only. *)
Lemma assemble_absent (k : string) :
  k <> "temperature" -> k <> "max_tokens" ->
  kwargs !! k = None ->
  assemble_params model_name temperature max_tokens kwargs !! k = None.
Proof.
  intros Ht Hm Hk. unfold assemble_params.
  apply map_lookup_filter_None_2. left.
  assert ((kwargs ∪ <["max_tokens" := of_optional_int max_tokens]>
                      (<["temperature" := VFloat temperature]> ∅)) !! k = None)
    as Hbase.
  { apply lookup_union_None_2; [exact Hk|].
    rewrite !lookup_insert_ne by congruence. apply lookup_empty. }
  destruct (Str.contains "r1" model_name);
    destruct (Str.contains "o1" model_name || Str.contains "o3" model_name);
    rewrite ?lookup_insert_ne by congruence;
    rewrite ?lookup_delete_ne by congruence; exact Hbase.
Qed.

(** No [None] reaches a constructor. *)
Lemma assemble_no_None (k : string) :
  assemble_params model_name temperature max_tokens kwargs !! k <> Some VNone.
Proof.
  unfold assemble_params. intros H.
  apply map_lookup_filter_Some_1_2 in H. discriminate H.
Qed.
End assemble_facts.

Lemma filter_None_lookup (m : gmap string value) (k : string) :
  filter (fun kv : string * value => is_None kv.2 = false) m !! k
  = drop_None (m !! k).
Proof.
  unfold drop_None. destruct (m !! k) as [v|] eqn:Hk.
  - destruct (is_None v) eqn:Hv.
    + apply map_lookup_filter_None_2. right. intros x Hx.
      cbn. rewrite Hk in Hx. injection Hx as <-. now rewrite Hv.
    + now apply map_lookup_filter_Some_2.
  - apply map_lookup_filter_None_2. now left.
Qed.

(** Away from ["temperature"], the assembly is the dict literal of line
    165 with its [None] values dropped. *)
Lemma assemble_lookup_ne model_name temperature max_tokens
    (kwargs : gmap string value) (k : string) :
  k <> "temperature" ->
  assemble_params model_name temperature max_tokens kwargs !! k
  = drop_None ((kwargs ∪ {[ "max_tokens" := of_optional_int max_tokens ]}) !! k).
Proof.
  intros Hk. unfold assemble_params. rewrite filter_None_lookup. f_equal.
  assert ((kwargs ∪ <["max_tokens" := of_optional_int max_tokens]>
                      (<["temperature" := VFloat temperature]> ∅)) !! k
          = (kwargs ∪ {[ "max_tokens" := of_optional_int max_tokens ]}) !! k)
    as Hbase.
  { rewrite !lookup_union. f_equal.
    destruct (decide (k = "max_tokens")) as [-> | Hm].
    - now rewrite lookup_insert_eq, lookup_singleton_eq.
    - rewrite !lookup_insert_ne by congruence.
      now rewrite lookup_singleton_ne by congruence. }
  destruct (Str.contains "r1" model_name);
    destruct (Str.contains "o1" model_name || Str.contains "o3" model_name);
    rewrite ?lookup_insert_ne by congruence;
    rewrite ?lookup_delete_ne by congruence; exact Hbase.
Qed.

Lemma assemble_lookup_kwargs model_name temperature max_tokens
    (kwargs : gmap string value) (k : string) :
  k <> "temperature" -> k <> "max_tokens" ->
  assemble_params model_name temperature max_tokens kwargs !! k
  = drop_None (kwargs !! k).
Proof.
  intros Ht Hm. rewrite assemble_lookup_ne by exact Ht. f_equal.
  rewrite lookup_union, lookup_singleton_ne by congruence.
  now destruct (kwargs !! k).
Qed.

(** ** The dispatch chain *)

Lemma elem_of_clashing explicit (model_params : gmap string value) k :
  k ∈ clashing explicit model_params
  <-> k ∈ explicit.*1 /\ is_Some (model_params !! k).
Proof. unfold clashing. rewrite list_elem_of_filter. tauto. Qed.

Lemma clashing_nil explicit (model_params : gmap string value) :
  clashing explicit model_params = []
  <-> Forall (fun kv => model_params !! kv.1 = None) explicit.
Proof.
  rewrite Forall_forall. split.
  - intros Hnil [k v] Hin. cbn.
    destruct (model_params !! k) as [x|] eqn:Hk; [| reflexivity].
    assert (k ∈ clashing explicit model_params) as Hk'.
    { apply elem_of_clashing. split; [| rewrite Hk; eauto].
      apply list_elem_of_fmap. now exists (k, v). }
    rewrite Hnil in Hk'. now apply elem_of_nil in Hk'.
  - intros Hall. apply elem_of_nil_inv. intros k Hk.
    apply elem_of_clashing in Hk as [Hin [x Hx]].
    apply list_elem_of_fmap in Hin as ([k' v] & -> & Hin).
    apply Hall in Hin. cbn in *. congruence.
Qed.


Lemma construct_inr_inv c explicit (model_params : gmap string value) w w' m :
  construct c explicit model_params w = (w', inr m) ->
  w' = w /\ m = ChatModel c (list_to_map explicit ∪ model_params)
  /\ Forall (fun kv => model_params !! kv.1 = None) explicit.
Proof.
  unfold construct.
  destruct (clashing explicit model_params) as [|k ks] eqn:Hclash;
    [| discriminate].
  destruct (sdk w c _ _); [discriminate |].
  intros [= <- <-]. repeat split. now apply clashing_nil.
Qed.

Lemma construct_inl_inv c explicit (model_params : gmap string value) w w' e :
  construct c explicit model_params w = (w', inl e) ->
  w' = w
  /\ ((e = TypeError_multiple_values (clashing explicit model_params)
       /\ clashing explicit model_params <> [])
      \/ (exists raised,
            e = ConstructorError c raised
            /\ clashing explicit model_params = []
            /\ sdk w c (list_to_map explicit ∪ model_params) (environ w)
               = Some raised)).
Proof.
  unfold construct.
  destruct (clashing explicit model_params) as [|k ks] eqn:Hclash.
  - destruct (sdk w c _ _) as [raised|] eqn:Hsdk; [| discriminate].
    intros [= <- <-]. split; [reflexivity |]. right. eauto.
  - intros [= <- <-]. split; [reflexivity |]. left. split; [reflexivity |].
    discriminate.
Qed.

Lemma dispatch_call model_name provider notice c explicit model_params w :
  provider_call model_name provider notice c explicit ->
  dispatch provider model_name model_params w
  = (print notice;;; m <- construct c explicit model_params;; ret (Some m)) w.
Proof. now destruct 1. Qed.

Lemma dispatch_inr_inv provider model_name model_params w w' c :
  dispatch provider model_name model_params w = (w', inr (Some c)) ->
  exists notice explicit,
    provider_call model_name provider notice (cls c) explicit
    /\ w' = World (environ w) (stdout w ++ [notice]) (sdk w)
    /\ init_kwargs c = list_to_map explicit ∪ model_params
    /\ Forall (fun kv => model_params !! kv.1 = None) explicit.
Proof.
  unfold dispatch.
  repeat (case_decide; [subst provider | ]);
    try (intros H'; apply bind_inr_inv in H' as (? & w1 & [= <-] & H');
         apply bind_inr_inv in H' as (m & w2 & Hc & [= <- <-]);
         apply construct_inr_inv in Hc as (-> & -> & Hall);
         do 2 eexists; (split; [constructor |]); auto).
  discriminate.
Qed.

(** ** The process environment *)

Lemma keeps_ret {A} (a : A) : keeps_environ (ret a).
Proof. now intros w. Qed.

Lemma keeps_raise {A} e : keeps_environ (@raise A e).
Proof. now intros w. Qed.

Lemma keeps_print line : keeps_environ (print line).
Proof. now intros w. Qed.

Lemma keeps_bind {A B} (m : M A) (k : A -> M B) :
  keeps_environ m -> (forall a, keeps_environ (k a)) -> keeps_environ (bind m k).
Proof.
  intros Hm Hk w. unfold bind. specialize (Hm w).
  destruct (m w) as [w1 [e|a]]; cbn in *; [exact Hm |].
  now rewrite Hk.
Qed.

Lemma keeps_construct c explicit model_params :
  keeps_environ (construct c explicit model_params).
Proof.
  intros w. unfold construct.
  destruct (clashing explicit model_params); [| reflexivity].
  now destruct (sdk w c _ _).
Qed.

Lemma keeps_detect_loop items model_name :
  keeps_environ (detect_loop items model_name).
Proof.
  induction items as [|[pattern provider] rest IH]; cbn [detect_loop].
  - apply keeps_raise.
  - destruct (Str.contains _ _); [apply keeps_ret | exact IH].
Qed.

Lemma keeps_validate self provider model_name :
  keeps_environ (_validate_model self provider model_name).
Proof.
  intros w. unfold _validate_model.
  destruct (dict_get _ _); [case_bool_decide |]; reflexivity.
Qed.

Create HintDb frame.
#[local] Hint Resolve keeps_ret keeps_raise keeps_print keeps_construct
  keeps_detect_loop keeps_validate : frame.
#[local] Hint Extern 2 (keeps_environ (bind _ _)) =>
  apply keeps_bind; [| intros ?] : frame.

Lemma keeps_dispatch provider model_name model_params :
  keeps_environ (dispatch provider model_name model_params).
Proof. unfold dispatch. repeat case_decide; auto 6 with frame. Qed.

(** ** [get_llm], step by step *)

Lemma get_llm_steps self model_name provider temperature max_tokens api_key kwargs :
  get_llm self model_name provider temperature max_tokens api_key kwargs
  = (p <- resolve self model_name provider;;
     _validate_model self p model_name;;;
     store_key p api_key;;;
     dispatch p model_name
              (assemble_params model_name temperature max_tokens kwargs)).
Proof. reflexivity. Qed.

Lemma detect_loop_world items model_name w :
  (detect_loop items model_name w).1 = w.
Proof.
  induction items as [|[pattern provider] rest IH]; cbn [detect_loop];
    [reflexivity |].
  now destruct (Str.contains _ _).
Qed.

Lemma resolve_world self model_name provider w :
  (resolve self model_name provider w).1 = w.
Proof. destruct provider; [reflexivity | apply detect_loop_world]. Qed.


Lemma environ_set_inr_inv name val w w1 u :
  environ_set name val w = (w1, inr u) ->
  putenv_accepts name val
  /\ w1 = World (<[name := val]> (environ w)) (stdout w) (sdk w).
Proof.
  unfold environ_set, putenv_accepts.
  destruct (Str.contains nul name) eqn:Hn; [discriminate |].
  destruct (Str.contains nul val) eqn:Hv; [discriminate |].
  case_bool_decide as He; [discriminate |].
  destruct (Str.contains "=" name) eqn:Hq; [discriminate |].
  intros [= <-].
  apply StrFacts.not_contains_occurs_in in Hn, Hv, Hq. auto.
Qed.

Lemma environ_set_inl_inv name val w w1 e :
  environ_set name val w = (w1, inl e) ->
  w1 = w
  /\ ((e = ValueError Embedded_null_byte
       /\ (occurs_in nul name \/ occurs_in nul val))
      \/ (e = ValueError Illegal_environment_variable_name
          /\ (name = "" \/ occurs_in "=" name))).
Proof.
  unfold environ_set.
  destruct (Str.contains nul name) eqn:Hn.
  { intros [= <- <-]. apply StrFacts.contains_occurs_in in Hn. auto. }
  destruct (Str.contains nul val) eqn:Hv.
  { intros [= <- <-]. apply StrFacts.contains_occurs_in in Hv. auto. }
  case_bool_decide as He.
  { intros [= <- <-]. auto. }
  destruct (Str.contains "=" name) eqn:Hq; [| discriminate].
  intros [= <- <-]. apply StrFacts.contains_occurs_in in Hq. auto.
Qed.


Lemma store_key_inr_inv provider api_key w w1 u :
  store_key provider api_key w = (w1, inr u) ->
  key_accepted provider api_key /\ w1 = key_stored provider api_key w.
Proof.
  unfold key_accepted, store_key, key_stored.
  destruct (truthy api_key) as [key|].
  - intros H. apply environ_set_inr_inv in H as [Hacc ->].
    split; [| reflexivity]. now intros ? [= <-].
  - intros [= <-]. split; [discriminate | now destruct w].
Qed.

Lemma store_key_inl_inv provider api_key w w1 e :
  store_key provider api_key w = (w1, inl e) ->
  w1 = w
  /\ exists key,
       truthy api_key = Some key
       /\ ((e = ValueError Embedded_null_byte
            /\ (occurs_in nul (Str.upper provider +:+ "_API_KEY")
                \/ occurs_in nul key))
           \/ (e = ValueError Illegal_environment_variable_name
               /\ occurs_in "=" (Str.upper provider +:+ "_API_KEY"))).
Proof.
  unfold store_key. destruct (truthy api_key) as [key|]; [| discriminate].
  intros H. apply environ_set_inl_inv in H as [-> H].
  split; [reflexivity |]. exists key. split; [reflexivity |].
  destruct H as [H | [-> [He | Hq]]]; auto.
  destruct (Str.upper provider); discriminate He.
Qed.



Lemma truthy_inv (api_key : option string) (key : string) :
  truthy api_key = Some key -> api_key = Some key /\ key <> "".
Proof.
  destruct api_key as [[|c k]|]; cbn; try discriminate.
  intros [= <-]. split; [reflexivity | discriminate].
Qed.


(** A call that returns went through every step. *)
Lemma get_llm_inr_inv self model_name provider temperature max_tokens api_key
    kwargs w w' r :
  get_llm self model_name provider temperature max_tokens api_key kwargs w
  = (w', inr r) ->
  exists p models,
    resolve self model_name provider w = (w, inr p)
    /\ dict_get p (available_models self) = Some models
    /\ model_name ∈ models
    /\ key_accepted p api_key
    /\ dispatch p model_name
                (assemble_params model_name temperature max_tokens kwargs)
                (key_stored p api_key w) = (w', inr r).
Proof.
  rewrite get_llm_steps. intros H.
  apply bind_inr_inv in H as (p & w1 & Hres & H).
  assert (w1 = w) as -> by (rewrite <- (resolve_world self model_name provider w);
                            now rewrite Hres).
  apply bind_inr_inv in H as (b & w2 & Hval & H).
  apply validate_model_inr_inv in Hval as (-> & _ & models & Hget & Hin).
  apply bind_inr_inv in H as ([] & w3 & Hkey & H).
  apply store_key_inr_inv in Hkey as [Hacc ->].
  exists p, models. auto 6.
Qed.

(** A call that fails validation raises before the environment is
    touched and before any parameter is assembled. *)
Lemma get_llm_unsupported_provider self model_name provider temperature
    max_tokens api_key kwargs w p :
  resolve self model_name provider w = (w, inr p) ->
  dict_get p (available_models self) = None ->
  get_llm self model_name provider temperature max_tokens api_key kwargs w
  = (w, inl (ValueError
               (Provider_not_supported p (dict_keys (available_models self))))).
Proof.
  intros Hres Hget. rewrite get_llm_steps.
  erewrite bind_inr by exact Hres.
  eapply bind_inl. unfold _validate_model. now rewrite Hget.
Qed.

(** The keywords written out in a call are never ["temperature"]. *)
Lemma provider_call_temperature model_name provider notice c explicit
    (model_params : gmap string value) :
  provider_call model_name provider notice c explicit ->
  (list_to_map explicit ∪ model_params) !! "temperature"
  = model_params !! "temperature".
Proof. destruct 1; now apply lookup_union_r. Qed.

Lemma get_llm_client_temperature self model_name provider temperature max_tokens
    api_key kwargs w w' c :
  get_llm self model_name provider temperature max_tokens api_key kwargs w
  = (w', inr (Some c)) ->
  init_kwargs c !! "temperature"
  = assemble_params model_name temperature max_tokens kwargs !! "temperature".
Proof.
  intros H. apply get_llm_inr_inv in H as (p & models & _ & _ & _ & _ & H).
  apply dispatch_inr_inv in H as (notice & explicit & Hcall & _ & -> & _).
  eapply provider_call_temperature, Hcall.
Qed.

Lemma provider_call_keywords model_name provider notice c explicit :
  provider_call model_name provider notice c explicit ->
  Forall (fun kv : string * value =>
            kv.1 <> "temperature" /\ kv.1 <> "max_tokens") explicit.
Proof. destruct 1; repeat constructor; discriminate. Qed.


(** ** The api key and the process environment *)

(** C10 — with [api_key = ""] the key step writes nothing: whatever the
    call does afterwards (raise, return a client, return [None]), the
    process environment after it is the environment before it. *)
Theorem empty_api_key_writes_nothing (self : LLMHandler) (model_name : string)
    (provider : option string) (temperature : float) (max_tokens : option Z)
    (kwargs : gmap string value) (w : world) :
  environ (get_llm self model_name provider temperature max_tokens
                   (Some "") kwargs w).1
  = environ w.
Proof.
  revert w. fold (keeps_environ
    (get_llm self model_name provider temperature max_tokens (Some "") kwargs)).
  rewrite get_llm_steps.
  apply keeps_bind.
  { destruct provider; [apply keeps_ret | apply keeps_detect_loop]. }
  intros p. apply keeps_bind; [apply keeps_validate | intros _].
  apply keeps_bind; [apply keeps_ret | intros _; apply keeps_dispatch].
Qed.

(** The same call on the shipped handler does reach the constructor. *)
Example empty_api_key_call :
  get_llm __init__ "llama3.2:3b" None default_temperature default_max_tokens
          (Some "") ∅ fresh
  = (World ∅ ["Using Ollama"] (sdk fresh),
     inr (Some (ChatModel ChatOllama
                  (<["model" := VStr ollama_model]>
                     (<["base_url" := VStr ollama_base_url]>
                        (<["max_tokens" := VInt 4000]>
                           (<["temperature" := VFloat 0]> ∅))))))).
Proof. vm_compute. reflexivity. Qed.

(** A keyword of the call that comes again through [kwargs] makes the
    constructor call fail; the key is written and the notice printed by
    then. *)
Example clashing_keyword_call :
  get_llm __init__ "llama3.2:3b" None default_temperature default_max_tokens
          (Some "secret") {[ "base_url" := VStr "http://localhost:11434" ]} fresh
  = (World {[ "OLLAMA_API_KEY" := "secret" ]} ["Using Ollama"] (sdk fresh),
     inl (TypeError_multiple_values ["base_url"])).
Proof. vm_compute. reflexivity. Qed.

(** What the constructor raises is what [get_llm] raises, after the
    notice: with SDKs that want their credentials, a call for a hosted
    model without a key fails in the constructor, and succeeds once the
    key is passed. *)
Example constructor_error_call :
  let w := World ∅ [] sdk_wants_key in
  let self := with_catalog catalog_with_disabled_entries in
  get_llm self "gpt-4o-mini" None default_temperature default_max_tokens
          None ∅ w
  = (World ∅ ["Using OpenAI"] sdk_wants_key,
     inl (ConstructorError ChatOpenAI "api key not set"))
  /\ exists c,
       get_llm self "gpt-4o-mini" None default_temperature default_max_tokens
               (Some "sk-test") ∅ w
       = (World {[ "OPENAI_API_KEY" := "sk-test" ]} ["Using OpenAI"]
                sdk_wants_key, inr (Some c)).
Proof. split; [| eexists]; vm_compute; reflexivity. Qed.

(** A key that [os.putenv] refuses makes the key step raise: nothing is
    written, nothing printed, no constructor called. *)
Example refused_key_call :
  get_llm __init__ "llama3.2:3b" None default_temperature default_max_tokens
          (Some ("a" +:+ nul +:+ "b")) ∅ fresh
  = (fresh, inl (ValueError Embedded_null_byte))
  /\ get_llm (with_catalog [("a=b", ["m"])]) "m" (Some "a=b")
             default_temperature default_max_tokens (Some "k") ∅ fresh
     = (fresh, inl (ValueError Illegal_environment_variable_name)).
Proof. split; vm_compute; reflexivity. Qed.





(** ** The local provider *)

(** C2, as stated, fails: the key step runs for every provider, also for
    ["ollama"], so a supplied key is visible in the process environment
    after the call. *)
Lemma ollama_api_key_counterexample :
  environ (get_llm __init__ "llama3.2:3b" None default_temperature
                   default_max_tokens (Some "secret") ∅ fresh).1
  !! "OLLAMA_API_KEY" = Some "secret"
  /\ environ (get_llm __init__ "llama3.2:3b" None default_temperature
                      default_max_tokens None ∅ fresh).1
     !! "OLLAMA_API_KEY" = None
  /\ get_llm __init__ "llama3.2:3b" None default_temperature
             default_max_tokens (Some "secret") ∅ fresh
     <> get_llm __init__ "llama3.2:3b" None default_temperature
                default_max_tokens None ∅ fresh.
Proof.
  split; [| split]; [vm_compute; reflexivity ..|].
  intros Heq. apply (f_equal (fun r => environ r.1 !! "OLLAMA_API_KEY")) in Heq.
  vm_compute in Heq. discriminate Heq.
Qed.

(** C2, amended — when [get_llm] returns a [ChatOllama] client, the
    client was built from the hardcoded model identifier, the hardcoded
    endpoint and the assembled parameters: neither [model_name] nor
    [api_key] is among its arguments ([model_name] acts only through
    detection, validation and the temperature rules of the assembly).  The
    key step has run all the same: a non-empty [api_key] is in the process
    environment under [OLLAMA_API_KEY], and otherwise the environment is
    unchanged. *)
Theorem ollama_client_fixed (self : LLMHandler) (model_name : string)
    (provider : option string) (temperature : float) (max_tokens : option Z)
    (api_key : option string) (kwargs : gmap string value) (w w' : world)
    (c : chat_model) :
  get_llm self model_name provider temperature max_tokens api_key kwargs w
  = (w', inr (Some c)) ->
  cls c = ChatOllama ->
  init_kwargs c
  = <["model" := VStr ollama_model]>
      (<["base_url" := VStr ollama_base_url]>
         (assemble_params model_name temperature max_tokens kwargs))
  /\ environ w'
     = match truthy api_key with
       | Some key => <["OLLAMA_API_KEY" := key]> (environ w)
       | None => environ w
       end
  /\ stdout w' = stdout w ++ ["Using Ollama"].
Proof.
  intros Hrun Hcls.
  apply get_llm_inr_inv in Hrun as (p & models & _ & _ & _ & Hacc & Hrun).
  apply dispatch_inr_inv in Hrun as (notice & explicit & Hcall & -> & -> & _).
  rewrite Hcls in Hcall. inversion Hcall; subst.
  unfold key_stored. cbn [environ stdout]. repeat split.
  cbn [list_to_map foldr uncurry]. unfold curry.
  now rewrite <- !insert_union_l, (left_id_L ∅ (∪)).
Qed.

Lemma ollama_client_fixed_witness :
  init_kwargs
    (ChatModel ChatOllama
       (<["model" := VStr ollama_model]>
          (<["base_url" := VStr ollama_base_url]>
             (<["max_tokens" := VInt 4000]>
                (<["temperature" := VFloat 0]> ∅)))))
  = <["model" := VStr ollama_model]>
      (<["base_url" := VStr ollama_base_url]>
         (assemble_params "mistral:7b" default_temperature default_max_tokens ∅))
  /\ environ (World (<["OLLAMA_API_KEY" := "secret"]> ∅) ["Using Ollama"]
                    (sdk fresh))
     = <["OLLAMA_API_KEY" := "secret"]> (environ fresh)
  /\ stdout (World (<["OLLAMA_API_KEY" := "secret"]> ∅) ["Using Ollama"]
                   (sdk fresh))
     = stdout fresh ++ ["Using Ollama"].
Proof.
  apply (ollama_client_fixed __init__ "mistral:7b" (Some "ollama")
           default_temperature default_max_tokens (Some "secret") ∅ fresh).
  - vm_compute. reflexivity.
  - reflexivity.
Defined.

(** On the shipped catalog the client is the same for every model name
    and every key that the call accepts. *)
Lemma shipped_client_independent (m1 m2 : string) (p1 p2 key1 key2 : option string)
    (temperature : float) (max_tokens : option Z) (kwargs : gmap string value)
    (w1 w2 w1' w2' : world) (c1 c2 : chat_model) :
  get_llm __init__ m1 p1 temperature max_tokens key1 kwargs w1
  = (w1', inr (Some c1)) ->
  get_llm __init__ m2 p2 temperature max_tokens key2 kwargs w2
  = (w2', inr (Some c2)) ->
  c1 = c2.
Proof.
  assert (forall m p key w w' c,
    get_llm __init__ m p temperature max_tokens key kwargs w
    = (w', inr (Some c)) ->
    c = ChatModel ChatOllama
          (list_to_map [("model", VStr ollama_model);
                        ("base_url", VStr ollama_base_url)]
           ∪ assemble_params "" temperature max_tokens kwargs)) as Hshape.
  { intros m p key w w' c Hrun.
    apply get_llm_inr_inv in Hrun as (q & models & _ & Hget & Hin & _ & Hrun).
    cbn in Hget. case_decide; [| discriminate]. injection Hget as <-. subst q.
    apply dispatch_inr_inv in Hrun as (notice & explicit & Hcall & _ & Hkw & _).
    inversion Hcall; subst. destruct c as [k a]; cbn in *. subst.
    apply elem_of_cons in Hin as [-> | Hin]; [reflexivity |].
    apply elem_of_cons in Hin as [-> | Hin]; [reflexivity |].
    now apply elem_of_nil in Hin. }
  intros H1 H2. rewrite (Hshape _ _ _ _ _ _ H1). now apply Hshape in H2.
Qed.

(** ** The temperature rules *)

(** C1, as stated, fails: lines 167 to 173 are two independent [if]s, and
    the second one runs after the first; for a name that holds ["o1"] and
    ["r1"] the temperature is removed and then set to 0.6, and 0.6 is what
    the constructor receives. *)
Lemma r1_after_o1_counterexample :
  occurs_in "o1" "o1-r1" /\ occurs_in "r1" "o1-r1"
  /\ get_llm (with_catalog catalog_with_o1_r1) "o1-r1" None default_temperature
             default_max_tokens None ∅ fresh
     = (World ∅ ["Using OpenAI"] (sdk fresh),
        inr (Some (ChatModel ChatOpenAI
                     (<["model" := VStr "o1-r1"]>
                        (<["max_tokens" := VInt 4000]>
                           (<["temperature" := VFloat 0.6]> ∅))))))
  /\ assemble_params "o1-r1" default_temperature default_max_tokens ∅
     !! "temperature" <> None.
Proof.
  split; [exists "", "-r1"; reflexivity |].
  split; [exists "o1-", ""; reflexivity |].
  split; [vm_compute; reflexivity | vm_compute; discriminate].
Qed.

(** C1, amended — for every call to [get_llm] whose [model_name] holds
    both one of ["o1"]/["o3"] and ["r1"] and that returns a client, the
    parameter set of the client has temperature 0.6: the [r1] rule runs
    after the removal and sets the key again. *)
Theorem r1_override_readds_temperature (self : LLMHandler) (model_name : string)
    (provider : option string) (temperature : float) (max_tokens : option Z)
    (api_key : option string) (kwargs : gmap string value) (w w' : world)
    (c : chat_model) :
  occurs_in "o1" model_name \/ occurs_in "o3" model_name ->
  occurs_in "r1" model_name ->
  get_llm self model_name provider temperature max_tokens api_key kwargs w
  = (w', inr (Some c)) ->
  init_kwargs c !! "temperature" = Some (VFloat 0.6).
Proof.
  intros _ Hr1 Hrun.
  erewrite get_llm_client_temperature by exact Hrun.
  now apply assemble_temperature_r1, StrFacts.contains_occurs_in.
Qed.

Lemma r1_override_readds_temperature_witness :
  init_kwargs (ChatModel ChatOpenAI
                 (<["model" := VStr "o1-r1"]>
                    (<["max_tokens" := VInt 4000]>
                       (<["temperature" := VFloat 0.6]> ∅))))
  !! "temperature" = Some (VFloat 0.6).
Proof.
  apply (r1_override_readds_temperature
           (with_catalog catalog_with_o1_r1) "o1-r1" None default_temperature
           default_max_tokens None ∅ fresh (World ∅ ["Using OpenAI"] (sdk fresh))).
  - left. exists "", "-r1". reflexivity.
  - exists "o1-", "". reflexivity.
  - vm_compute. reflexivity.
Defined.

(** Detection on a handler that has the shipped pattern table. *)
Lemma detect_shipped_patterns self model_name w :
  model_patterns self = model_patterns __init__ ->
  _detect_provider self model_name w = _detect_provider __init__ model_name w.
Proof. unfold _detect_provider. now intros ->. Qed.

(** C3, as stated, fails on the shipped handler: the detected provider
    ["openai"] is no key of the catalog, the call raises in the validation
    step and no parameter set is assembled. *)
Lemma o1_call_counterexample :
  get_llm __init__ "o1-2024-12-17" None 0.9 default_max_tokens None ∅ fresh
  = (fresh, inl (ValueError (Provider_not_supported "openai" ["ollama"])))
  /\ ~ (exists c w',
          get_llm __init__ "o1-2024-12-17" None 0.9 default_max_tokens None ∅
                  fresh
          = (w', inr (Some c))).
Proof.
  split; [vm_compute; reflexivity |].
  intros (c & w' & H). vm_compute in H. discriminate H.
Qed.

(** C3, amended — with the shipped catalog the call
    [get_llm("o1-2024-12-17", temperature=0.9)] with no explicit provider
    raises the unsupported-provider error and assembles no parameters.  On
    a handler with the shipped pattern table, whenever that call returns a
    client, it is a [ChatOpenAI] client whose parameter set has no
    temperature key. *)
Theorem o1_call_without_temperature (self : LLMHandler) (max_tokens : option Z)
    (api_key : option string) (kwargs : gmap string value) (w w' : world)
    (c : chat_model) :
  model_patterns self = model_patterns __init__ ->
  get_llm self "o1-2024-12-17" None 0.9 max_tokens api_key kwargs w
  = (w', inr (Some c)) ->
  get_llm __init__ "o1-2024-12-17" None 0.9 max_tokens api_key kwargs w
  = (w, inl (ValueError (Provider_not_supported "openai" ["ollama"])))
  /\ cls c = ChatOpenAI
  /\ init_kwargs c !! "temperature" = None.
Proof.
  intros Hpat Hrun. split; [now apply get_llm_unsupported_provider |].
  apply get_llm_inr_inv in Hrun as (p & models & Hres & _ & _ & _ & Hrun).
  cbn [resolve] in Hres. rewrite detect_shipped_patterns in Hres by exact Hpat.
  injection Hres as <-.
  apply dispatch_inr_inv in Hrun as (notice & explicit & Hcall & _ & -> & _).
  split; [now inversion Hcall |].
  erewrite provider_call_temperature by exact Hcall.
  now apply assemble_temperature_removed.
Qed.

Lemma o1_call_without_temperature_witness :
  get_llm __init__ "o1-2024-12-17" None 0.9 default_max_tokens None ∅ fresh
  = (fresh, inl (ValueError (Provider_not_supported "openai" ["ollama"])))
  /\ cls (ChatModel ChatOpenAI
            (<["model" := VStr "o1-2024-12-17"]>
               (<["max_tokens" := VInt 4000]> ∅))) = ChatOpenAI
  /\ init_kwargs (ChatModel ChatOpenAI
                    (<["model" := VStr "o1-2024-12-17"]>
                       (<["max_tokens" := VInt 4000]> ∅)))
     !! "temperature" = None.
Proof.
  apply (o1_call_without_temperature
           (with_catalog catalog_with_disabled_entries) default_max_tokens
           None ∅ fresh (World ∅ ["Using OpenAI"] (sdk fresh))).
  - reflexivity.
  - vm_compute. reflexivity.
Defined.

(** C4, as stated, fails on the shipped handler: detection does answer
    ["fireworks"], but ["fireworks"] is no key of the catalog, the call
    raises in the validation step and no temperature is forced. *)
Lemma fireworks_r1_counterexample :
  _detect_provider __init__ deepseek_r1 fresh = (fresh, inr "fireworks")
  /\ get_llm __init__ deepseek_r1 None default_temperature default_max_tokens
             None ∅ fresh
     = (fresh, inl (ValueError (Provider_not_supported "fireworks" ["ollama"])))
  /\ ~ (exists c w',
          get_llm __init__ deepseek_r1 None default_temperature
                  default_max_tokens None ∅ fresh
          = (w', inr (Some c))).
Proof.
  split; [reflexivity |]. split; [vm_compute; reflexivity |].
  intros (c & w' & H). vm_compute in H. discriminate H.
Qed.

(** C4, amended — for the name [accounts/fireworks/models/deepseek-r1]
    detection answers ["fireworks"]: the pattern ["fireworks"] stands
    before ["r1"] (which maps to ["together"] and occurs in the name too).
    With the shipped catalog [get_llm] then raises the unsupported-provider
    error and forces no temperature.  On a handler with the shipped
    pattern table, whenever the call returns a client, it is a
    [ChatFireworks] client whose temperature is 0.6, whatever temperature
    the caller gave. *)
Theorem fireworks_r1_call (self : LLMHandler) (temperature : float)
    (max_tokens : option Z) (api_key : option string)
    (kwargs : gmap string value) (w w' : world) (c : chat_model) :
  model_patterns self = model_patterns __init__ ->
  get_llm self deepseek_r1 None temperature max_tokens api_key kwargs w
  = (w', inr (Some c)) ->
  _detect_provider __init__ deepseek_r1 w = (w, inr "fireworks")
  /\ (exists pre post,
        model_patterns __init__ = pre ++ ("fireworks", "fireworks") :: post
        /\ ("r1", "together") ∈ post
        /\ occurs_in "r1" (Str.lower deepseek_r1))
  /\ get_llm __init__ deepseek_r1 None temperature max_tokens api_key kwargs w
     = (w, inl (ValueError (Provider_not_supported "fireworks" ["ollama"])))
  /\ cls c = ChatFireworks
  /\ init_kwargs c !! "temperature" = Some (VFloat 0.6).
Proof.
  intros Hpat Hrun. split; [reflexivity |]. split; [| split].
  - exists (take 9 (model_patterns __init__)), (drop 10 (model_patterns __init__)).
    split; [reflexivity |]. split; [apply list_elem_of_here |].
    apply StrFacts.contains_occurs_in. reflexivity.
  - now apply get_llm_unsupported_provider.
  - apply get_llm_inr_inv in Hrun as (p & models & Hres & _ & _ & _ & Hrun).
    cbn [resolve] in Hres.
    rewrite detect_shipped_patterns in Hres by exact Hpat.
    injection Hres as <-.
    apply dispatch_inr_inv in Hrun as (notice & explicit & Hcall & _ & -> & _).
    split; [now inversion Hcall |].
    erewrite provider_call_temperature by exact Hcall.
    now apply assemble_temperature_r1.
Qed.

Lemma fireworks_r1_call_witness :
  _detect_provider __init__ deepseek_r1 fresh = (fresh, inr "fireworks")
  /\ (exists pre post,
        model_patterns __init__ = pre ++ ("fireworks", "fireworks") :: post
        /\ ("r1", "together") ∈ post
        /\ occurs_in "r1" (Str.lower deepseek_r1))
  /\ get_llm __init__ deepseek_r1 None 0.9 default_max_tokens None ∅ fresh
     = (fresh, inl (ValueError (Provider_not_supported "fireworks" ["ollama"])))
  /\ cls (ChatModel ChatFireworks
            (<["model" := VStr deepseek_r1]>
               (<["max_tokens" := VInt 4000]>
                  (<["temperature" := VFloat 0.6]> ∅)))) = ChatFireworks
  /\ init_kwargs (ChatModel ChatFireworks
                    (<["model" := VStr deepseek_r1]>
                       (<["max_tokens" := VInt 4000]>
                          (<["temperature" := VFloat 0.6]> ∅))))
     !! "temperature" = Some (VFloat 0.6).
Proof.
  apply (fireworks_r1_call
           (with_catalog catalog_with_disabled_entries) 0.9 default_max_tokens
           None ∅ fresh (World ∅ ["Using Fireworks"] (sdk fresh))).
  - reflexivity.
  - vm_compute. reflexivity.
Defined.

(** ** More on detection *)

Lemma is_upper_lower_char (c : ascii) : Str.is_upper (Str.lower_char c) = false.
Proof. destruct c as [[] [] [] [] [] [] [] []]; reflexivity. Qed.

Lemma has_upper_lower (s : string) : has_upper (Str.lower s) = false.
Proof.
  unfold Str.lower. induction s as [|c s IH]; cbn; [reflexivity |].
  now rewrite is_upper_lower_char, IH.
Qed.

Lemma has_upper_append (a b : string) :
  has_upper (a +:+ b) = has_upper a || has_upper b.
Proof.
  induction a as [|c a IH]; [reflexivity |].
  rewrite StrFacts.append_cons. cbn. now rewrite IH, orb_assoc.
Qed.

Lemma has_upper_occurs_in (p s : string) :
  occurs_in p s -> has_upper p = true -> has_upper s = true.
Proof.
  intros (a & b & ->) Hp. rewrite !has_upper_append, Hp.
  now rewrite orb_true_r.
Qed.

Lemma detect_loop_inr_world items model_name w w' p :
  detect_loop items model_name w = (w', inr p) -> w' = w.
Proof.
  intros H. pose proof (detect_loop_world items model_name w) as Hw.
  now rewrite H in Hw.
Qed.

Lemma detect_loop_inl_inv items model_name w w' e :
  detect_loop items model_name w = (w', inl e) ->
  w' = w /\ e = ValueError (Could_not_detect_provider model_name).
Proof.
  induction items as [|[pattern provider] rest IH]; cbn [detect_loop].
  - now intros [= <- <-].
  - destruct (Str.contains _ _); [discriminate | exact IH].
Qed.

(** The loop over a table that is the join of two tables. *)
Lemma detect_loop_app items more model_name w :
  detect_loop (items ++ more) model_name w
  = match detect_loop items model_name w with
    | (_, inr p) => (w, inr p)
    | (_, inl _) => detect_loop more model_name w
    end.
Proof.
  induction items as [|[pattern provider] rest IH]; cbn [detect_loop app];
    [reflexivity |].
  now destruct (Str.contains _ _).
Qed.

(** X1 — detection looks at the lower-cased name only: two names that
    agree up to the case of their letters are detected as the same
    provider, and when one is not detected the other is not either (each
    error reports the name it was asked about). *)
Theorem detect_provider_case_insensitive (self : LLMHandler)
    (m1 m2 : string) (w : world) :
  Str.lower m1 = Str.lower m2 ->
  (forall p, _detect_provider self m1 w = (w, inr p) ->
             _detect_provider self m2 w = (w, inr p))
  /\ (_detect_provider self m1 w
      = (w, inl (ValueError (Could_not_detect_provider m1))) ->
      _detect_provider self m2 w
      = (w, inl (ValueError (Could_not_detect_provider m2)))).
Proof.
  intros Hlow. unfold _detect_provider.
  generalize (model_patterns self) as items.
  induction items as [|[pattern provider] rest IH]; cbn [detect_loop].
  - split; [discriminate | reflexivity].
  - rewrite <- Hlow.
    destruct (Str.contains pattern (Str.lower m1)); [| exact IH].
    split; [auto | discriminate].
Qed.

Lemma detect_provider_case_insensitive_witness :
  (forall p, _detect_provider __init__ "GPT-4o-Mini" fresh = (fresh, inr p) ->
             _detect_provider __init__ "gpt-4O-mini" fresh = (fresh, inr p))
  /\ (_detect_provider __init__ "GPT-4o-Mini" fresh
      = (fresh, inl (ValueError (Could_not_detect_provider "GPT-4o-Mini"))) ->
      _detect_provider __init__ "gpt-4O-mini" fresh
      = (fresh, inl (ValueError (Could_not_detect_provider "gpt-4O-mini")))).
Proof.
  apply (detect_provider_case_insensitive __init__ "GPT-4o-Mini" "gpt-4O-mini").
  reflexivity.
Defined.

(** X2 — only the name is lower-cased, the patterns are not: a pattern
    that holds an upper-case letter occurs in no lower-cased name, so its
    row never answers and detection is what it would be without the row. *)
Theorem uppercase_pattern_never_matches (self : LLMHandler)
    (pre post : dict string) (pattern provider model_name : string)
    (w : world) :
  model_patterns self = pre ++ (pattern, provider) :: post ->
  has_upper pattern = true ->
  ~ occurs_in pattern (Str.lower model_name)
  /\ _detect_provider self model_name w = detect_loop (pre ++ post) model_name w.
Proof.
  intros Htable Hup.
  assert (~ occurs_in pattern (Str.lower model_name)) as Hno.
  { intros Hocc. apply has_upper_occurs_in in Hocc; [| exact Hup].
    now rewrite has_upper_lower in Hocc. }
  split; [exact Hno |].
  unfold _detect_provider. rewrite Htable, !detect_loop_app.
  cbn [detect_loop].
  apply StrFacts.not_contains_occurs_in in Hno. now rewrite Hno.
Qed.

Lemma uppercase_pattern_never_matches_witness :
  ~ occurs_in "Qwen" (Str.lower "Qwen2-7B")
  /\ _detect_provider
       {| available_models := []; model_types := [];
          model_patterns := [("Qwen", "together"); ("qwen", "fireworks")] |}
       "Qwen2-7B" fresh
     = detect_loop ([] ++ [("qwen", "fireworks")]) "Qwen2-7B" fresh.
Proof.
  apply (uppercase_pattern_never_matches
           {| available_models := []; model_types := [];
              model_patterns := [("Qwen", "together"); ("qwen", "fireworks")] |}
           [] [("qwen", "fireworks")] "Qwen" "together" "Qwen2-7B" fresh).
  - reflexivity.
  - reflexivity.
Defined.

(** X3 — rows added at the end of the pattern table never change a
    detection that succeeded, and are consulted exactly when the rows
    before them all failed: for a table that is the join of two tables,
    the answer of the first table stands, and otherwise the answer is that
    of the second table. *)
Theorem detect_provider_table_append (a b ab : LLMHandler) (model_name : string)
    (w : world) :
  model_patterns ab = model_patterns a ++ model_patterns b ->
  (forall p, _detect_provider a model_name w = (w, inr p) ->
             _detect_provider ab model_name w = (w, inr p))
  /\ (_detect_provider a model_name w
      = (w, inl (ValueError (Could_not_detect_provider model_name))) ->
      _detect_provider ab model_name w = _detect_provider b model_name w).
Proof.
  intros Htable. unfold _detect_provider. rewrite Htable, detect_loop_app.
  split; [intros p Hp | intros Hfail].
  - now rewrite Hp.
  - now rewrite Hfail.
Qed.

Lemma detect_provider_table_append_witness :
  (forall p, _detect_provider __init__ "qwen2-7b" fresh = (fresh, inr p) ->
             _detect_provider
               {| available_models := available_models __init__;
                  model_types := model_types __init__;
                  model_patterns := model_patterns __init__ ++ [("qwen", "ollama")] |}
               "qwen2-7b" fresh = (fresh, inr p))
  /\ (_detect_provider __init__ "qwen2-7b" fresh
      = (fresh, inl (ValueError (Could_not_detect_provider "qwen2-7b"))) ->
      _detect_provider
        {| available_models := available_models __init__;
           model_types := model_types __init__;
           model_patterns := model_patterns __init__ ++ [("qwen", "ollama")] |}
        "qwen2-7b" fresh
      = _detect_provider
          {| available_models := []; model_types := [];
             model_patterns := [("qwen", "ollama")] |}
          "qwen2-7b" fresh).
Proof.
  apply (detect_provider_table_append __init__
           {| available_models := []; model_types := [];
              model_patterns := [("qwen", "ollama")] |}).
  reflexivity.
Defined.

(** X4 — the empty pattern occurs in every name (Python's ["" in s] is
    true, also for the empty name): a table that holds a row with the empty
    pattern detects a provider for every model name. *)
Theorem empty_pattern_matches_all (self : LLMHandler) (provider model_name : string)
    (w : world) :
  ("", provider) ∈ model_patterns self ->
  exists p, _detect_provider self model_name w = (w, inr p).
Proof.
  unfold _detect_provider. generalize (model_patterns self) as items.
  induction items as [|[pattern q] rest IH]; intros Hin.
  - now apply elem_of_nil in Hin.
  - cbn [detect_loop].
    destruct (Str.contains pattern (Str.lower model_name)) eqn:Hc; [eauto |].
    apply elem_of_cons in Hin as [[= <- <-] | Hin]; [| auto].
    apply StrFacts.not_contains_occurs_in in Hc.
    destruct Hc. now exists "", (Str.lower model_name).
Qed.

Lemma empty_pattern_matches_all_witness :
  exists p,
    _detect_provider
      {| available_models := []; model_types := [];
         model_patterns := model_patterns __init__ ++ [("", "ollama")] |}
      "" fresh = (fresh, inr p).
Proof.
  apply (empty_pattern_matches_all
           {| available_models := []; model_types := [];
              model_patterns := model_patterns __init__ ++ [("", "ollama")] |}
           "ollama" "" fresh).
  apply elem_of_app. right. apply list_elem_of_here.
Defined.

(** ** More on the parameters of the call *)

Lemma assemble_temperature_kept model_name temperature max_tokens
    (kwargs : gmap string value) :
  Str.contains "o1" model_name = false ->
  Str.contains "o3" model_name = false ->
  Str.contains "r1" model_name = false ->
  kwargs !! "temperature" = None ->
  assemble_params model_name temperature max_tokens kwargs !! "temperature"
  = Some (VFloat temperature).
Proof.
  intros Ho1 Ho3 Hr1 Hkw. unfold assemble_params.
  rewrite Ho1, Ho3, Hr1. cbn [orb]. rewrite filter_None_lookup.
  rewrite lookup_union_r by exact Hkw.
  rewrite lookup_insert_ne by discriminate.
  now rewrite lookup_insert_eq.
Qed.

(** The keywords of the chain carry strings. *)
Lemma provider_call_values model_name provider notice c explicit k v :
  provider_call model_name provider notice c explicit ->
  (k, v) ∈ explicit ->
  k ∈ ["model"; "model_name"; "base_url"] /\ exists s, v = VStr s.
Proof.
  destruct 1; intros Hin;
    repeat (apply elem_of_cons in Hin as [[= -> ->] | Hin];
            [split; [rewrite !elem_of_cons; tauto | eauto] |]);
    now apply elem_of_nil in Hin.
Qed.

Lemma provider_call_class model_name provider notice c explicit :
  provider_call model_name provider notice c explicit ->
  provider = provider_of_class c.
Proof. now destruct 1. Qed.

(** A returned client, taken apart. *)
Lemma get_llm_client_inv self model_name provider temperature max_tokens api_key
    kwargs w w' c :
  get_llm self model_name provider temperature max_tokens api_key kwargs w
  = (w', inr (Some c)) ->
  exists p notice explicit,
    resolve self model_name provider w = (w, inr p)
    /\ provider_call model_name p notice (cls c) explicit
    /\ init_kwargs c
       = list_to_map explicit
         ∪ assemble_params model_name temperature max_tokens kwargs
    /\ Forall (fun kv =>
                 assemble_params model_name temperature max_tokens kwargs
                 !! kv.1 = None) explicit.
Proof.
  intros H. apply get_llm_inr_inv in H as (p & models & Hres & _ & _ & _ & H).
  apply dispatch_inr_inv in H as (notice & explicit & Hcall & _ & Hkw & Hall).
  eauto 8.
Qed.

Lemma list_to_map_absent (explicit : list (string * value))
    (model_params : gmap string value) (k : string) (v : value) :
  Forall (fun kv => model_params !! kv.1 = None) explicit ->
  model_params !! k = Some v ->
  (list_to_map explicit : gmap string value) !! k = None.
Proof.
  intros Hall Hk. apply not_elem_of_list_to_map_1.
  intros Hin. apply list_elem_of_fmap in Hin as ([k' v'] & -> & Hin).
  rewrite Forall_forall in Hall. apply Hall in Hin. cbn in *. congruence.
Qed.

(** X5 — for a model whose name holds none of ["o1"], ["o3"] and ["r1"]
    (as written, case sensitive), the client receives the temperature the
    caller gave. *)
Theorem temperature_passed_unchanged (self : LLMHandler) (model_name : string)
    (provider : option string) (temperature : float) (max_tokens : option Z)
    (api_key : option string) (kwargs : gmap string value) (w w' : world)
    (c : chat_model) :
  ~ occurs_in "o1" model_name ->
  ~ occurs_in "o3" model_name ->
  ~ occurs_in "r1" model_name ->
  kwargs !! "temperature" = None ->
  get_llm self model_name provider temperature max_tokens api_key kwargs w
  = (w', inr (Some c)) ->
  init_kwargs c !! "temperature" = Some (VFloat temperature).
Proof.
  intros Ho1 Ho3 Hr1 Hkw Hrun.
  apply StrFacts.not_contains_occurs_in in Ho1, Ho3, Hr1.
  apply get_llm_client_inv in Hrun
    as (p & notice & explicit & _ & Hcall & -> & _).
  erewrite provider_call_temperature by exact Hcall.
  now apply assemble_temperature_kept.
Qed.

Lemma temperature_passed_unchanged_witness :
  init_kwargs
    (ChatModel ChatOllama
       (<["model" := VStr ollama_model]>
          (<["base_url" := VStr ollama_base_url]>
             (<["max_tokens" := VInt 4000]>
                (<["temperature" := VFloat 0.9]> ∅)))))
  !! "temperature" = Some (VFloat 0.9).
Proof.
  apply (temperature_passed_unchanged __init__ "llama3.2:3b" None 0.9
           default_max_tokens None ∅ fresh (World ∅ ["Using Ollama"] (sdk fresh))).
  - intros H. apply StrFacts.contains_occurs_in in H. discriminate H.
  - intros H. apply StrFacts.contains_occurs_in in H. discriminate H.
  - intros H. apply StrFacts.contains_occurs_in in H. discriminate H.
  - reflexivity.
  - vm_compute. reflexivity.
Defined.

(** X6 — for a model whose name holds ["o1"] or ["o3"] but not ["r1"],
    every client that is returned has no temperature among its arguments,
    whatever temperature the caller gave. *)
Theorem temperature_removed_for_o1_o3 (self : LLMHandler) (model_name : string)
    (provider : option string) (temperature : float) (max_tokens : option Z)
    (api_key : option string) (kwargs : gmap string value) (w w' : world)
    (c : chat_model) :
  occurs_in "o1" model_name \/ occurs_in "o3" model_name ->
  ~ occurs_in "r1" model_name ->
  get_llm self model_name provider temperature max_tokens api_key kwargs w
  = (w', inr (Some c)) ->
  init_kwargs c !! "temperature" = None.
Proof.
  intros Ho Hr1 Hrun.
  apply StrFacts.not_contains_occurs_in in Hr1.
  apply get_llm_client_inv in Hrun
    as (p & notice & explicit & _ & Hcall & -> & _).
  erewrite provider_call_temperature by exact Hcall.
  apply assemble_temperature_removed; [| exact Hr1].
  apply orb_true_iff.
  destruct Ho as [Ho | Ho]; [left | right];
    now apply StrFacts.contains_occurs_in.
Qed.

Lemma temperature_removed_for_o1_o3_witness :
  init_kwargs
    (ChatModel ChatOpenAI
       (<["model" := VStr "o3-mini-2025-01-31"]>
          (<["max_tokens" := VInt 4000]> ∅)))
  !! "temperature" = None.
Proof.
  apply (temperature_removed_for_o1_o3
           (with_catalog catalog_with_disabled_entries) "o3-mini-2025-01-31"
           (Some "openai") 0.9 default_max_tokens None ∅ fresh
           (World ∅ ["Using OpenAI"] (sdk fresh))).
  - right. exists "", "-mini-2025-01-31". reflexivity.
  - intros H. apply StrFacts.contains_occurs_in in H. discriminate H.
  - vm_compute. reflexivity.
Defined.

(** X7 — no [None] is ever passed to a constructor: in every client that
    [get_llm] returns, no argument has the value [None]. *)
Theorem client_has_no_None (self : LLMHandler) (model_name : string)
    (provider : option string) (temperature : float) (max_tokens : option Z)
    (api_key : option string) (kwargs : gmap string value) (w w' : world)
    (c : chat_model) (k : string) :
  get_llm self model_name provider temperature max_tokens api_key kwargs w
  = (w', inr (Some c)) ->
  init_kwargs c !! k <> Some VNone.
Proof.
  intros Hrun Hk.
  apply get_llm_client_inv in Hrun
    as (p & notice & explicit & _ & Hcall & Heq & _).
  rewrite Heq in Hk. apply lookup_union_Some_raw in Hk as [Hk | [_ Hk]].
  - apply elem_of_list_to_map_2 in Hk.
    eapply provider_call_values in Hk as [_ [s Hs]]; [| exact Hcall].
    discriminate Hs.
  - now apply assemble_no_None in Hk.
Qed.

Lemma client_has_no_None_witness :
  init_kwargs
    (ChatModel ChatOllama
       (<["model" := VStr ollama_model]>
          (<["base_url" := VStr ollama_base_url]>
             (<["temperature" := VFloat 0]> ∅))))
  !! "max_tokens" <> Some VNone.
Proof.
  apply (client_has_no_None __init__ "llama3.2:3b" None default_temperature
           None None {[ "seed" := VNone ]} fresh (World ∅ ["Using Ollama"] (sdk fresh))).
  vm_compute. reflexivity.
Defined.

(** X8 — the extra keyword arguments are forwarded as they are: an
    argument of the caller with a value other than [None] is an argument of
    the returned client with the same value; and the client has no
    argument beyond the keywords of the chain, the two named parameters
    and what the caller passed. *)
Theorem kwargs_forwarded (self : LLMHandler) (model_name : string)
    (provider : option string) (temperature : float) (max_tokens : option Z)
    (api_key : option string) (kwargs : gmap string value) (w w' : world)
    (c : chat_model) :
  get_llm self model_name provider temperature max_tokens api_key kwargs w
  = (w', inr (Some c)) ->
  (forall k v, k <> "temperature" -> kwargs !! k = Some v -> v <> VNone ->
               init_kwargs c !! k = Some v)
  /\ (forall k v, init_kwargs c !! k = Some v ->
                  k ∈ ["model"; "model_name"; "base_url"; "temperature";
                       "max_tokens"]
                  \/ kwargs !! k = Some v).
Proof.
  intros Hrun.
  apply get_llm_client_inv in Hrun
    as (p & notice & explicit & _ & Hcall & -> & Hall).
  split.
  - intros k v Hk Hkw Hv.
    assert (assemble_params model_name temperature max_tokens kwargs !! k
            = Some v) as Hparam.
    { rewrite assemble_lookup_ne by exact Hk.
      rewrite lookup_union_l' by (rewrite Hkw; eauto).
      rewrite Hkw. cbn. destruct v; cbn; congruence. }
    rewrite lookup_union_r; [exact Hparam |].
    eapply list_to_map_absent; eauto.
  - intros k v Hk. apply lookup_union_Some_raw in Hk as [Hk | [_ Hk]].
    + apply elem_of_list_to_map_2 in Hk.
      eapply provider_call_values in Hk as [Hk _]; [| exact Hcall].
      left. rewrite !elem_of_cons in *. tauto.
    + destruct (decide (k = "temperature")) as [-> | Ht];
        [left; rewrite !elem_of_cons; tauto |].
      destruct (decide (k = "max_tokens")) as [-> | Hm];
        [left; rewrite !elem_of_cons; tauto |].
      right. rewrite assemble_lookup_kwargs in Hk by assumption.
      destruct (kwargs !! k) as [u|]; [| discriminate].
      cbn in Hk. now destruct (is_None u).
Qed.

Lemma kwargs_forwarded_witness :
  (forall k v, k <> "temperature" ->
               ({[ "seed" := VInt 7 ]} : gmap string value) !! k = Some v ->
               v <> VNone ->
               init_kwargs
                 (ChatModel ChatOllama
                    (<["model" := VStr ollama_model]>
                       (<["base_url" := VStr ollama_base_url]>
                          (<["seed" := VInt 7]>
                             (<["temperature" := VFloat 0]> ∅)))))
               !! k = Some v)
  /\ (forall k v,
        init_kwargs
          (ChatModel ChatOllama
             (<["model" := VStr ollama_model]>
                (<["base_url" := VStr ollama_base_url]>
                   (<["seed" := VInt 7]>
                      (<["temperature" := VFloat 0]> ∅)))))
        !! k = Some v ->
        k ∈ ["model"; "model_name"; "base_url"; "temperature"; "max_tokens"]
        \/ ({[ "seed" := VInt 7 ]} : gmap string value) !! k = Some v).
Proof.
  apply (kwargs_forwarded __init__ "mistral:7b" (Some "ollama")
           default_temperature None None {[ "seed" := VInt 7 ]} fresh
           (World ∅ ["Using Ollama"] (sdk fresh))).
  vm_compute. reflexivity.
Defined.

(** X9 — [max_tokens] reaches the client exactly when it is given: with
    [max_tokens = n] the client has [max_tokens = n], and with
    [max_tokens = None] it has no such argument. *)
Theorem max_tokens_passed_when_given (self : LLMHandler) (model_name : string)
    (provider : option string) (temperature : float) (max_tokens : option Z)
    (api_key : option string) (kwargs : gmap string value) (w w' : world)
    (c : chat_model) :
  kwargs !! "max_tokens" = None ->
  get_llm self model_name provider temperature max_tokens api_key kwargs w
  = (w', inr (Some c)) ->
  init_kwargs c !! "max_tokens" = VInt <$> max_tokens.
Proof.
  intros Hkw Hrun.
  apply get_llm_client_inv in Hrun
    as (p & notice & explicit & _ & Hcall & -> & _).
  rewrite lookup_union_r.
  - rewrite assemble_lookup_ne by discriminate.
    rewrite lookup_union_r by exact Hkw. rewrite lookup_singleton_eq.
    now destruct max_tokens.
  - apply not_elem_of_list_to_map_1. intros Hin.
    apply list_elem_of_fmap in Hin as ([k v] & Hk & Hin). cbn in Hk. subst k.
    eapply provider_call_values in Hin as [Hin _]; [| exact Hcall].
    rewrite !elem_of_cons, elem_of_nil in Hin.
    destruct Hin as [H | [H | [H | []]]]; discriminate H.
Qed.

Lemma max_tokens_passed_when_given_witness :
  init_kwargs
    (ChatModel ChatOllama
       (<["model" := VStr ollama_model]>
          (<["base_url" := VStr ollama_base_url]>
             (<["temperature" := VFloat 0]> ∅))))
  !! "max_tokens" = VInt <$> None.
Proof.
  apply (max_tokens_passed_when_given __init__ "llama3.2:3b" None
           default_temperature None None ∅ fresh (World ∅ ["Using Ollama"] (sdk fresh))).
  - reflexivity.
  - vm_compute. reflexivity.
Defined.

(** ** Failures of [get_llm] *)

(** The dispatch fails in the constructor call only: on a clash of
    keywords, or because the constructor raises; the notice has been
    printed by then. *)
Lemma dispatch_inl_inv provider model_name model_params w w' e :
  dispatch provider model_name model_params w = (w', inl e) ->
  exists notice c explicit,
    provider_call model_name provider notice c explicit
    /\ w' = World (environ w) (stdout w ++ [notice]) (sdk w)
    /\ ((e = TypeError_multiple_values (clashing explicit model_params)
         /\ clashing explicit model_params <> [])
        \/ exists raised, e = ConstructorError c raised).
Proof.
  unfold dispatch.
  repeat (case_decide; [subst provider | ]);
    try (unfold bind at 1; cbn [print];
         unfold bind;
         match goal with
         | |- context [construct ?c ?ex ?mp ?w0] =>
             destruct (construct c ex mp w0) as [w1 [e1|m]] eqn:Hc
         end;
         [| discriminate];
         intros [= <- <-];
         apply construct_inl_inv in Hc as (-> & Hc);
         do 3 eexists; split; [constructor |]; split; [reflexivity |];
         destruct Hc as [Hc | (raised & -> & _)]; [now left | right; eauto]).
  discriminate.
Qed.


(** The keywords that clash, read off the caller's arguments. *)
Lemma clashing_assembled model_name provider notice c explicit temperature
    max_tokens (kwargs : gmap string value) (k : string) :
  provider_call model_name provider notice c explicit ->
  k ∈ clashing explicit
        (assemble_params model_name temperature max_tokens kwargs)
  <-> k ∈ explicit.*1 /\ exists v, kwargs !! k = Some v /\ v <> VNone.
Proof.
  intros Hcall. rewrite elem_of_clashing.
  pose proof (provider_call_keywords _ _ _ _ _ Hcall) as Hkw.
  rewrite Forall_forall in Hkw.
  split; intros [Hin Hk]; (split; [exact Hin |]);
    apply list_elem_of_fmap in Hin as ([k' v'] & -> & Hin);
    destruct (Hkw _ Hin) as [Ht Hm]; cbn in *;
    rewrite assemble_lookup_kwargs in * by assumption.
  - destruct (kwargs !! k') as [v|]; [| now destruct Hk].
    exists v. split; [reflexivity |]. intros ->. now destruct Hk.
  - destruct Hk as (v & -> & Hv). destruct v; cbn; [congruence | eauto ..].
Qed.





(** X12 — the multiple-values [TypeError] is raised for a real clash
    only: its keywords are exactly those that the chain writes out for the
    resolved provider and that the caller passed with a value other than
    [None]; the key has been stored and the provider's notice printed by
    then. *)
Theorem get_llm_failures (self : LLMHandler) (model_name : string)
    (provider : option string) (temperature : float) (max_tokens : option Z)
    (api_key : option string) (kwargs : gmap string value) (w w' : world)
    (ks : list string) :
  get_llm self model_name provider temperature max_tokens api_key kwargs w
  = (w', inl (TypeError_multiple_values ks)) ->
  exists p notice c explicit,
    resolve self model_name provider w = (w, inr p)
    /\ provider_call model_name p notice c explicit
    /\ ks <> []
    /\ (forall k, k ∈ ks
                  <-> k ∈ explicit.*1
                      /\ exists u, kwargs !! k = Some u /\ u <> VNone)
    /\ w' = World (match truthy api_key with
                   | Some key =>
                       <[Str.upper p +:+ "_API_KEY" := key]> (environ w)
                   | None => environ w
                   end) (stdout w ++ [notice]) (sdk w).
Proof.
  rewrite get_llm_steps. unfold bind at 1.
  destruct (resolve self model_name provider w) as [w1 [e|p]] eqn:Hres.
  { intros [= <- ->]. destruct provider as [q|]; [discriminate Hres |].
    apply detect_loop_inl_inv in Hres as [_ [=]]. }
  assert (w1 = w) as ->.
  { pose proof (resolve_world self model_name provider w) as Hw.
    now rewrite Hres in Hw. }
  unfold bind at 1, _validate_model.
  destruct (dict_get p (available_models self)) as [models|];
    [case_bool_decide |]; try discriminate.
  cbn. unfold bind at 1.
  destruct (store_key p api_key w) as [w2 [e|[]]] eqn:Hkey.
  { intros [= <- ->].
    apply store_key_inl_inv in Hkey
      as (_ & key & _ & [[[=] _] | [[=] _]]). }
  apply store_key_inr_inv in Hkey as [_ ->].
  intros Hrun.
  apply dispatch_inl_inv in Hrun
    as (notice & c & explicit & Hcall & -> & [[[= ->] Hne] | [raised [=]]]).
  exists p, notice, c, explicit.
  split; [reflexivity |]. split; [exact Hcall |]. split; [exact Hne |].
  split; [| reflexivity].
  intros k. eapply clashing_assembled; eauto.
Qed.

Lemma get_llm_failures_witness :
  exists p notice c explicit,
    resolve __init__ "llama3.2:3b" None fresh = (fresh, inr p)
    /\ provider_call "llama3.2:3b" p notice c explicit
    /\ ["base_url"] <> []
    /\ (forall k,
          k ∈ ["base_url"]
          <-> k ∈ explicit.*1
              /\ exists u,
                   ({[ "base_url" := VStr "http://localhost:11434" ]}
                    : gmap string value) !! k = Some u /\ u <> VNone)
    /\ World {[ "OLLAMA_API_KEY" := "secret" ]} ["Using Ollama"] (sdk fresh)
       = World (match truthy (Some "secret") with
                | Some key =>
                    <[Str.upper p +:+ "_API_KEY" := key]> (environ fresh)
                | None => environ fresh
                end) (stdout fresh ++ [notice]) (sdk fresh).
Proof.
  apply (get_llm_failures __init__ "llama3.2:3b" None default_temperature
           default_max_tokens (Some "secret")
           {[ "base_url" := VStr "http://localhost:11434" ]} fresh).
  vm_compute. reflexivity.
Defined.

(** ** What [get_llm] does to the process *)





(** The environment after a call, by the step the call reached. *)
Lemma get_llm_environ self model_name provider temperature max_tokens api_key
    kwargs w :
  environ (get_llm self model_name provider temperature max_tokens api_key
                   kwargs w).1
  = match resolve self model_name provider w with
    | (_, inr p) =>
        match _validate_model self p model_name w with
        | (_, inr _) => environ (store_key p api_key w).1
        | (_, inl _) => environ w
        end
    | (_, inl _) => environ w
    end.
Proof.
  rewrite get_llm_steps. unfold bind at 1.
  pose proof (resolve_world self model_name provider w) as Hw.
  destruct (resolve self model_name provider w) as [w1 [e|p]];
    cbn in Hw; subst w1; [reflexivity |].
  unfold bind at 1.
  pose proof (keeps_validate self p model_name w) as Hval.
  destruct (_validate_model self p model_name w) as [w2 [e|b]] eqn:Hv;
    cbn in Hval; [exact Hval |].
  apply validate_model_inr_inv in Hv as (-> & _).
  unfold bind at 1.
  destruct (store_key p api_key w) as [w3 [e|[]]]; [reflexivity |].
  now rewrite keeps_dispatch.
Qed.

(** X14 — [get_llm] touches at most one environment variable: after any
    call, whatever its outcome, the environment is either the one before
    the call, or the one before the call with the variable of the
    resolved provider set to the non-empty key that was passed.  No
    variable is ever removed. *)
Theorem environ_written_at_most_once (self : LLMHandler) (model_name : string)
    (provider : option string) (temperature : float) (max_tokens : option Z)
    (api_key : option string) (kwargs : gmap string value) (w : world) :
  let after :=
    environ (get_llm self model_name provider temperature max_tokens api_key
                     kwargs w).1 in
  after = environ w
  \/ exists p key,
       resolve self model_name provider w = (w, inr p)
       /\ api_key = Some key /\ key <> ""
       /\ after = <[Str.upper p +:+ "_API_KEY" := key]> (environ w).
Proof.
  cbn zeta. rewrite get_llm_environ.
  pose proof (resolve_world self model_name provider w) as Hw.
  destruct (resolve self model_name provider w) as [w1 [e|p]];
    cbn in Hw; subst w1; [now left |].
  destruct (_validate_model self p model_name w) as [w2 [e|b]]; [now left |].
  destruct (store_key p api_key w) as [w3 [e|[]]] eqn:Hkey.
  { apply store_key_inl_inv in Hkey as [-> _]. now left. }
  apply store_key_inr_inv in Hkey as [_ ->].
  unfold key_stored. cbn [fst environ].
  destruct (truthy api_key) as [key|] eqn:Htruthy; [| now left].
  apply truthy_inv in Htruthy as [-> Hne].
  right. exists p, key. auto.
Qed.

(** ** The catalog *)

Lemma elem_of_concat_values (d : dict (list string)) (m : string) :
  m ∈ concat (dict_values d)
  <-> exists p models, (p, models) ∈ d /\ m ∈ models.
Proof.
  unfold dict_values. induction d as [|[p models] d IH]; cbn.
  - split; [intros H; now apply elem_of_nil in H |].
    intros (p & models & H & _). now apply elem_of_nil in H.
  - rewrite elem_of_app, IH. split.
    + intros [H | (q & ms & Hq & Hm)].
      * exists p, models. split; [apply list_elem_of_here | exact H].
      * exists q, ms. split; [now apply list_elem_of_further | exact Hm].
    + intros (q & ms & Hq & Hm).
      apply elem_of_cons in Hq as [[= -> ->] | Hq]; [now left |].
      right. eauto.
Qed.

Lemma dict_get_NoDup {V} (d : dict V) (k : string) (v : V) :
  NoDup (dict_keys d) -> (k, v) ∈ d -> dict_get k d = Some v.
Proof.
  unfold dict_keys. induction d as [|[k' v'] d IH]; cbn.
  - intros _ H. now apply elem_of_nil in H.
  - intros Hnd Hin. apply NoDup_cons in Hnd as [Hk' Hnd].
    apply elem_of_cons in Hin as [[= -> ->] | Hin].
    + now rewrite decide_True.
    + rewrite decide_False; [now apply IH |].
      intros ->. apply Hk'. apply list_elem_of_fmap. now exists (k', v).
Qed.

(** X15 — [get_all_models] lists exactly the models that validation
    accepts: in a catalog (a dict, so with distinct keys) a model is in
    [get_all_models()] if and only if [_validate_model] returns [True] for
    it under some provider. *)
Theorem all_models_are_the_valid_ones (self : LLMHandler) (model_name : string)
    (w : world) :
  NoDup (dict_keys (available_models self)) ->
  model_name ∈ get_all_models self
  <-> exists provider,
        _validate_model self provider model_name w = (w, inr true).
Proof.
  intros Hnd. unfold get_all_models. rewrite extend_loop. cbn [app].
  rewrite elem_of_concat_values. split.
  - intros (p & models & Hp & Hm). exists p.
    eapply validate_model_accepts; [| exact Hm].
    now apply dict_get_NoDup.
  - intros (p & Hval).
    apply validate_model_inr_inv in Hval as (_ & _ & models & Hget & Hm).
    exists p, models. split; [now apply dict_get_Some | exact Hm].
Qed.

Lemma all_models_are_the_valid_ones_witness :
  "accounts/fireworks/models/deepseek-v3"
    ∈ get_all_models (with_catalog catalog_with_disabled_entries)
  <-> exists provider,
        _validate_model (with_catalog catalog_with_disabled_entries) provider
                        "accounts/fireworks/models/deepseek-v3" fresh
        = (fresh, inr true).
Proof.
  apply (all_models_are_the_valid_ones
           (with_catalog catalog_with_disabled_entries)).
  apply (bool_decide_unpack _). vm_compute. exact I.
Defined.

(** X16 — [get_llm] returns only for catalog models: whenever a call
    returns (a client or [None]), its [model_name] is one of
    [get_all_models()], listed under the resolved provider. *)
Theorem get_llm_returns_only_listed (self : LLMHandler) (model_name : string)
    (provider : option string) (temperature : float) (max_tokens : option Z)
    (api_key : option string) (kwargs : gmap string value) (w w' : world)
    (r : option chat_model) :
  get_llm self model_name provider temperature max_tokens api_key kwargs w
  = (w', inr r) ->
  (model_name ∈ get_all_models self)
  /\ exists p models,
       resolve self model_name provider w = (w, inr p)
       /\ ((p, models) ∈ available_models self)
       /\ (model_name ∈ models).
Proof.
  intros Hrun.
  apply get_llm_inr_inv in Hrun as (p & models & Hres & Hget & Hin & _).
  apply dict_get_Some in Hget.
  split; [| eauto].
  unfold get_all_models. rewrite extend_loop. cbn [app].
  apply elem_of_concat_values. eauto.
Qed.

Lemma get_llm_returns_only_listed_witness :
  ("mistral:7b" ∈ get_all_models __init__)
  /\ exists p models,
       resolve __init__ "mistral:7b" (Some "ollama") fresh = (fresh, inr p)
       /\ ((p, models) ∈ available_models __init__)
       /\ ("mistral:7b" ∈ models).
Proof.
  apply (get_llm_returns_only_listed __init__ "mistral:7b" (Some "ollama")
           default_temperature None None ∅ fresh (World ∅ ["Using Ollama"] (sdk fresh))
           (Some (ChatModel ChatOllama
                    (<["model" := VStr ollama_model]>
                       (<["base_url" := VStr ollama_base_url]>
                          (<["temperature" := VFloat 0]> ∅)))))).
  vm_compute. reflexivity.
Defined.

(** ** The shipped handler, and the client that is built *)

(** X17 — the calls that the shipped handler can serve: [get_llm]
    returns only for ["llama3.2:3b"] with the provider left out or given
    as ["ollama"], and for ["mistral:7b"] with the provider given as
    ["ollama"]; what it returns is then a [ChatOllama] client, never
    [None].  For ["mistral:7b"] with the provider left out, detection
    fails. *)
Theorem shipped_handler_accepts (model_name : string) (provider : option string)
    (temperature : float) (max_tokens : option Z) (api_key : option string)
    (kwargs : gmap string value) (w w' : world) (r : option chat_model) :
  get_llm __init__ model_name provider temperature max_tokens api_key kwargs w
  = (w', inr r) ->
  ((model_name = "llama3.2:3b"
    /\ (provider = None \/ provider = Some "ollama"))
   \/ (model_name = "mistral:7b" /\ provider = Some "ollama"))
  /\ (exists c, r = Some c /\ cls c = ChatOllama)
  /\ get_llm __init__ "mistral:7b" None temperature max_tokens api_key kwargs w
     = (w, inl (ValueError (Could_not_detect_provider "mistral:7b"))).
Proof.
  intros Hrun. split; [| split; [| reflexivity]].
  - apply get_llm_inr_inv in Hrun as (p & models & Hres & Hget & Hin & _).
    cbn in Hget. case_decide as Hp; [| discriminate]. subst p.
    injection Hget as <-.
    rewrite !elem_of_cons, elem_of_nil in Hin.
    destruct provider as [q|].
    + injection Hres as ->. tauto.
    + destruct Hin as [-> | [-> | []]]; [tauto |].
      vm_compute in Hres. discriminate Hres.
  - apply get_llm_inr_inv in Hrun as (p & models & _ & Hget & _ & _ & Hrun).
    cbn in Hget. case_decide as Hp; [| discriminate]. subst p.
    erewrite dispatch_call in Hrun by apply call_ollama.
    apply bind_inr_inv in Hrun as (? & w1 & _ & Hrun).
    apply bind_inr_inv in Hrun as (m & w2 & Hc & [= _ <-]).
    apply construct_inr_inv in Hc as (_ & -> & _). eauto.
Qed.

Lemma shipped_handler_accepts_witness :
  (("mistral:7b" = "llama3.2:3b"
    /\ (Some "ollama" = None \/ Some "ollama" = Some "ollama"))
   \/ ("mistral:7b" = "mistral:7b" /\ Some "ollama" = Some "ollama"))
  /\ (exists c,
        Some (ChatModel ChatOllama
                (<["model" := VStr ollama_model]>
                   (<["base_url" := VStr ollama_base_url]>
                      (<["max_tokens" := VInt 4000]>
                         (<["temperature" := VFloat 0]> ∅))))) = Some c
        /\ cls c = ChatOllama)
  /\ get_llm __init__ "mistral:7b" None default_temperature default_max_tokens
             None ∅ fresh
     = (fresh, inl (ValueError (Could_not_detect_provider "mistral:7b"))).
Proof.
  apply (shipped_handler_accepts "mistral:7b" (Some "ollama")
           default_temperature default_max_tokens None ∅ fresh
           (World ∅ ["Using Ollama"] (sdk fresh))).
  vm_compute. reflexivity.
Defined.

(** X18 — the client that is returned is of the class that the chain
    pairs with the resolved provider, and it carries the model under the
    keyword of that class: [model_name] for [ChatAnthropic] and
    [ChatMistralAI], [model] for the others; the value is the caller's
    [model_name], except for [ChatOllama], where it is the fixed local
    model. *)
Theorem client_class_and_model (self : LLMHandler) (model_name : string)
    (provider : option string) (temperature : float) (max_tokens : option Z)
    (api_key : option string) (kwargs : gmap string value) (w w' : world)
    (c : chat_model) :
  get_llm self model_name provider temperature max_tokens api_key kwargs w
  = (w', inr (Some c)) ->
  resolve self model_name provider w = (w, inr (provider_of_class (cls c)))
  /\ init_kwargs c !! model_keyword (cls c)
     = Some (VStr (match cls c with
                   | ChatOllama => ollama_model
                   | _ => model_name
                   end)).
Proof.
  intros Hrun.
  apply get_llm_client_inv in Hrun
    as (p & notice & explicit & Hres & Hcall & -> & _).
  split.
  - now rewrite <- (provider_call_class _ _ _ _ _ Hcall).
  - inversion Hcall as [Hc | Hc | Hc | Hc | Hc | Hc | Hc]; subst;
      apply lookup_union_Some_l; cbn; apply lookup_insert_eq.
Qed.

Lemma client_class_and_model_witness :
  resolve (with_catalog catalog_with_disabled_entries)
          "claude-3-5-haiku-20241022" None fresh
  = (fresh,
     inr (provider_of_class
            (cls (ChatModel ChatAnthropic
                    (<["model_name" := VStr "claude-3-5-haiku-20241022"]>
                       (<["max_tokens" := VInt 4000]>
                          (<["temperature" := VFloat 0]> ∅)))))))
  /\ init_kwargs
       (ChatModel ChatAnthropic
          (<["model_name" := VStr "claude-3-5-haiku-20241022"]>
             (<["max_tokens" := VInt 4000]>
                (<["temperature" := VFloat 0]> ∅))))
     !! model_keyword ChatAnthropic
     = Some (VStr "claude-3-5-haiku-20241022").
Proof.
  apply (client_class_and_model (with_catalog catalog_with_disabled_entries)
           "claude-3-5-haiku-20241022" None default_temperature
           default_max_tokens None ∅ fresh (World ∅ ["Using Anthropic AI"] (sdk fresh))).
  vm_compute. reflexivity.
Defined.
